(** * load-ecog-data-w-mne: loading an ECoG recording into an MNE Raw object

    A shallow embedding of the notebook [load-ecog-data-w-mne.ipynb].  The
    notebook is a straight line of Python statements:

      nwb    = pynwb.NWBHDF5IO(filepath, "r").read()
      fs     = round(nwb.acquisition["ElectricalSeries"].rate)
      signal = nwb.acquisition["ElectricalSeries"].data[start * fs:(start + num_secs) * fs, :]
      _, n_channels = signal.shape
      start_break = nwb.epochs["start_time"][0]
      stop_break  = nwb.epochs["stop_time"][0]
      bads   = [str(i) for i, bad in enumerate(nwb.electrodes["bad"][:]) if bad]
      info   = mne.create_info(n_channels, fs, ch_types="ecog", verbose="error")
      info["bads"] = bads
      raw    = mne.io.RawArray(signal.T, info)

    Python values are modelled as follows: an [int] is a [Z], a [float] is a
    [spec_float] (sign, mantissa, exponent, or a zero, an infinity, a NaN), a
    two-dimensional array is its list of rows together with its column
    count, a [dict] with string keys is a [gmap string _], a raised exception
    is the left summand of a sum type, and the file system together with the
    table of open file handles is an explicit state threaded through the
    statements. *)

From Stdlib Require Import ZArith List Lia Sorted.
From Stdlib Require Import SpecFloat DecimalString DecimalNat.
From stdpp Require Import base strings gmap list.

Local Open Scope Z_scope.

(** ** Exceptions *)

Module Py.

(** The exceptions the statements of the notebook can raise. *)
Inductive exn : Type :=
| FileNotFoundError   (* NWBHDF5IO on a path that does not resolve *)
| KeyError            (* dict lookup with a missing key *)
| IndexError          (* column[0] on an empty column *)
| ValueError          (* round(nan); create_info with sfreq <= 0; unknown bads *)
| OverflowError.      (* round(inf) *)

Definition result (A : Type) : Type := exn + A.

Definition ret {A} (a : A) : result A := inr a.
Definition raise {A} (e : exn) : result A := inl e.
Definition bind {A B} (m : result A) (k : A -> result B) : result B :=
  match m with
  | inl e => inl e
  | inr a => k a
  end.

(** ** [round(x)] for a float [x]

    [float.__round__] without [ndigits] returns the integer nearest to [x],
    a tie going to the even neighbour; it raises [ValueError] on a NaN and
    [OverflowError] on an infinity. *)

(** [m / 2^k] rounded to nearest, ties to even, for a positive shift [k]. *)
Definition round_half_even_shift (m : Z) (k : Z) : Z :=
  let d := 2 ^ k in
  let q := m / d in
  let r := m mod d in
  match 2 * r ?= d with
  | Lt => q
  | Gt => q + 1
  | Eq => if Z.even q then q else q + 1
  end.

(** The magnitude [m * 2^e] rounded to an integer. *)
Definition round_magnitude (m : positive) (e : Z) : Z :=
  if 0 <=? e then Z.pos m * 2 ^ e
  else round_half_even_shift (Z.pos m) (- e).

Definition round (x : spec_float) : result Z :=
  match x with
  | S754_nan => raise ValueError
  | S754_infinity _ => raise OverflowError
  | S754_zero _ => ret 0
  | S754_finite s m e =>
      let n := round_magnitude m e in
      ret (if s then - n else n)
  end.

(** ** Slices

    [seq[lo:hi]] on a sequence of [len] items: each bound is first adjusted
    as [slice.indices(len)] does (a negative bound counts from the end, and
    every bound is clamped into [0, len]); the items [lo', hi') are kept,
    none when [hi' <= lo']. *)
Definition adjust_index (i : Z) (len : Z) : Z :=
  if i <? 0 then Z.max (i + len) 0 else Z.min i len.

Definition slice {A} (l : list A) (lo hi : Z) : list A :=
  let len := Z.of_nat (length l) in
  let lo' := adjust_index lo len in
  let hi' := adjust_index hi len in
  take (Z.to_nat (hi' - lo')) (drop (Z.to_nat lo') l).

(** [seq[0]] *)
Definition item0 {A} (l : list A) : result A :=
  match l with
  | [] => raise IndexError
  | x :: _ => ret x
  end.

(** [str(i)] for a non-negative [int], and [int(s)] back. *)
Definition str (i : nat) : string := NilZero.string_of_uint (Nat.to_uint i).

Definition int (s : string) : option nat :=
  match NilZero.uint_of_string s with
  | Some d => Some (Nat.of_uint d)
  | None => None
  end.

(** [enumerate(l)], counting from [n]. *)
Fixpoint enumerate_from {A} (n : nat) (l : list A) : list (nat * A) :=
  match l with
  | [] => []
  | x :: l' => (n, x) :: enumerate_from (S n) l'
  end.

Definition enumerate {A} (l : list A) : list (nat * A) := enumerate_from 0 l.

End Py.

Notation "x <- m ;; k" := (Py.bind m (fun x => k))
  (at level 100, m at next level, right associativity, only parsing).

(** ** Two-dimensional arrays *)

Module Np.

(** A sample of the recording. *)
Definition sample : Type := spec_float.

(** A two-dimensional array: its rows, and the length every row has (kept
    apart because an array may have no row at all). *)
Record ndarray : Type := mk_ndarray {
  ncols : nat;
  rows : list (list sample)
}.

(** Every row has [ncols] items. *)
Definition wf (a : ndarray) : Prop :=
  Forall (fun r => length r = ncols a) (rows a).

(** [a.shape] *)
Definition shape (a : ndarray) : nat * nat := (length (rows a), ncols a).

(** [a[i, j]] for in-range non-negative indices; [None] is out of range. *)
Definition get (a : ndarray) (i j : nat) : option sample :=
  match rows a !! i with
  | Some r => r !! j
  | None => None
  end.

(** [a[lo:hi, :]]: a slice of the first axis, every column kept. *)
Definition getitem_rows (a : ndarray) (lo hi : Z) : ndarray :=
  {| ncols := ncols a; rows := Py.slice (rows a) lo hi |}.

(** Column [j]: item [j] of each row. *)
Definition column (j : nat) (rs : list (list sample)) : list sample :=
  omap (fun r => r !! j) rs.

(** [a.T]: row [j] of the transpose is column [j] of [a]. *)
Definition T (a : ndarray) : ndarray :=
  {| ncols := length (rows a);
     rows := map (fun j => column j (rows a)) (seq 0 (ncols a)) |}.

End Np.

(** ** The NWB container, as far as the notebook reads it *)

Module Nwb.

(** An [ElectricalSeries]: the sampling rate in Hz and the recording, one
    row per time sample and one column per channel. *)
Record ElectricalSeries : Type := mk_ElectricalSeries {
  rate : spec_float;
  data : Np.ndarray
}.

(** The [epochs] table: its two columns. *)
Record TimeIntervals : Type := mk_TimeIntervals {
  start_time : list spec_float;
  stop_time : list spec_float
}.

(** The rows of an epoch table. *)
Definition epoch_rows (t : TimeIntervals) : list (spec_float * spec_float) :=
  zip (start_time t) (stop_time t).

(** The [electrodes] table: its ["bad"] column, one flag per electrode. *)
Record ElectrodeTable : Type := mk_ElectrodeTable {
  bad : list bool
}.

Record NWBFile : Type := mk_NWBFile {
  acquisition : gmap string ElectricalSeries;
  epochs : TimeIntervals;
  electrodes : ElectrodeTable
}.

(** [d[key]] on a dict. *)
Definition getitem {V} (d : gmap string V) (key : string) : Py.result V :=
  match d !! key with
  | Some v => Py.ret v
  | None => Py.raise Py.KeyError
  end.

(** The files on disk, by path, and the handles that are open: one entry
    per [NWBHDF5IO] that was opened and not closed since. *)
Record world : Type := mk_world {
  files : gmap string NWBFile;
  open_handles : list string
}.

(** [pynwb.NWBHDF5IO(path, "r")]: opens the file at [path] for reading. *)
Definition NWBHDF5IO (path : string) (w : world) : Py.result string * world :=
  match files w !! path with
  | None => (Py.raise Py.FileNotFoundError, w)
  | Some _ =>
      (Py.ret path,
       {| files := files w; open_handles := path :: open_handles w |})
  end.

(** [io.read()]: the contents of the file behind an open handle. *)
Definition read (io : string) (w : world) : Py.result NWBFile :=
  getitem (files w) io.

End Nwb.

(** ** The MNE objects the notebook builds *)

Module Mne.

(** The fields of an [Info] that the notebook sets. *)
Record Info : Type := mk_Info {
  ch_names : list string;
  sfreq : Z;
  ch_types : string;
  bads : list string
}.

(** [mne.create_info(n_channels, sfreq, ch_types=...)]: given a channel
    count, the channels are named ["0"], ["1"], ...; a sampling frequency
    that is not positive raises [ValueError]. *)
Definition create_info (n_channels : nat) (sfreq : Z) (ch_types : string)
  : Py.result Info :=
  if sfreq <=? 0 then Py.raise Py.ValueError
  else Py.ret {| ch_names := map Py.str (seq 0 n_channels);
                 sfreq := sfreq;
                 ch_types := ch_types;
                 bads := [] |}.

(** [info["bads"] = bads]: a name that is not a channel name of the info
    raises [ValueError]. *)
Definition set_bads (info : Info) (bads : list string) : Py.result Info :=
  if decide (Forall (fun b => b ∈ ch_names info) bads)
  then Py.ret {| ch_names := ch_names info;
                 sfreq := sfreq info;
                 ch_types := ch_types info;
                 bads := bads |}
  else Py.raise Py.ValueError.

(** [mne.io.RawArray(data, info)]: the array, channel first, and its
    measurement info. *)
Record RawArray : Type := mk_RawArray {
  raw_data : Np.ndarray;
  raw_info : Info
}.

End Mne.

(** ** The notebook

    One definition per variable the notebook binds, each a function of the
    variables its right-hand side reads. *)

Module Notebook.

(** [filepath = "data/ecog-cv-syllables/EC9_B53.nwb"] *)
Definition filepath : string := "data/ecog-cv-syllables/EC9_B53.nwb".

(** [start = 20], [num_secs = 60] *)
Definition start : Z := 20.
Definition num_secs : Z := 60.

(** [nwb = pynwb.NWBHDF5IO(filepath, "r").read()] *)
Definition nwb (filepath : string) (w : Nwb.world)
  : Py.result Nwb.NWBFile * Nwb.world :=
  match Nwb.NWBHDF5IO filepath w with
  | (inl e, w') => (inl e, w')
  | (inr io, w') => (Nwb.read io w', w')
  end.

(** [fs = round(nwb.acquisition["ElectricalSeries"].rate)] *)
Definition fs (nwb : Nwb.NWBFile) : Py.result Z :=
  es <- Nwb.getitem (Nwb.acquisition nwb) "ElectricalSeries" ;;
  Py.round (Nwb.rate es).

(** [signal = nwb.acquisition["ElectricalSeries"].data[start * fs:(start + num_secs) * fs, :]] *)
Definition signal (nwb : Nwb.NWBFile) (start num_secs fs : Z)
  : Py.result Np.ndarray :=
  es <- Nwb.getitem (Nwb.acquisition nwb) "ElectricalSeries" ;;
  Py.ret (Np.getitem_rows (Nwb.data es) (start * fs) ((start + num_secs) * fs)).

(** [_, n_channels = signal.shape] *)
Definition n_channels (signal : Np.ndarray) : nat := snd (Np.shape signal).

(** [start_break = nwb.epochs["start_time"][0]] *)
Definition start_break (nwb : Nwb.NWBFile) : Py.result spec_float :=
  Py.item0 (Nwb.start_time (Nwb.epochs nwb)).

(** [stop_break = nwb.epochs["stop_time"][0]] *)
Definition stop_break (nwb : Nwb.NWBFile) : Py.result spec_float :=
  Py.item0 (Nwb.stop_time (Nwb.epochs nwb)).

(** [bads = [str(i) for i, bad in enumerate(nwb.electrodes["bad"][:]) if bad]] *)
Definition bads (nwb : Nwb.NWBFile) : list string :=
  map (fun '(i, _) => Py.str i)
      (filter (fun '(_, bad) => bad = true)
              (Py.enumerate (Nwb.bad (Nwb.electrodes nwb)))).

(** The indices the comprehension keeps, before [str] is applied to them,
    when [enumerate] counts from [n]. *)
Definition kept_indices (n : nat) (flags : list bool) : list nat :=
  map fst (filter (fun '(_, bad) => bad = true) (Py.enumerate_from n flags)).

(** [info = mne.create_info(n_channels, fs, ch_types="ecog", verbose="error")]
    followed by [info["bads"] = bads] *)
Definition info (n_channels : nat) (fs : Z) (bads : list string)
  : Py.result Mne.Info :=
  info <- Mne.create_info n_channels fs "ecog" ;;
  Mne.set_bads info bads.

(** [raw = mne.io.RawArray(signal.T, info)] *)
Definition raw (signal : Np.ndarray) (info : Mne.Info) : Mne.RawArray :=
  {| Mne.raw_data := Np.T signal; Mne.raw_info := info |}.

(** *** The four stages *)

(** Window extraction: the cell that binds [fs] and [signal]. *)
Definition extract (nwb : Nwb.NWBFile) (start num_secs : Z)
  : Py.result Np.ndarray :=
  fs <- fs nwb ;;
  signal nwb start num_secs fs.

(** Baseline interval: the cell that binds [start_break] and [stop_break]. *)
Definition read_baseline (nwb : Nwb.NWBFile)
  : Py.result (spec_float * spec_float) :=
  start_break <- start_break nwb ;;
  stop_break <- stop_break nwb ;;
  Py.ret (start_break, stop_break).

(** Invalid channels: the cell that binds [bads]. *)
Definition read_invalid_channels (nwb : Nwb.NWBFile) : list string := bads nwb.


(** What a run leaves bound. *)
Record outputs : Type := mk_outputs {
  out_signal : Np.ndarray;
  out_break : spec_float * spec_float;
  out_bads : list string;
  out_raw : Mne.RawArray
}.

(** The cells after the load, in order; the first exception ends the run. *)
Definition cells (nwb : Nwb.NWBFile) (start num_secs : Z) : Py.result outputs :=
  fs <- fs nwb ;;
  signal <- signal nwb start num_secs fs ;;
  let n_channels := n_channels signal in
  start_break <- start_break nwb ;;
  stop_break <- stop_break nwb ;;
  let bads := bads nwb in
  info <- info n_channels fs bads ;;
  let raw := raw signal info in
  Py.ret {| out_signal := signal;
            out_break := (start_break, stop_break);
            out_bads := bads;
            out_raw := raw |}.

(** The whole notebook, run in a world [w]. *)
Definition pipeline (filepath : string) (start num_secs : Z) (w : Nwb.world)
  : Py.result outputs * Nwb.world :=
  match nwb filepath w with
  | (inl e, w') => (inl e, w')
  | (inr nwb, w') => (cells nwb start num_secs, w')
  end.

(** The notebook as it stands, with its own path and window. *)
Definition notebook (w : Nwb.world) : Py.result outputs * Nwb.world :=
  pipeline filepath start num_secs w.

End Notebook.

(** ** Concrete values used in the examples *)

Module Ex.

(** The binary64 value of a decimal literal [n/d]: the division of two
    exactly representable integers, correctly rounded. *)
Definition float_lit (n d : positive) : spec_float :=
  SFdiv 53 1024 (S754_finite false n 0) (S754_finite false d 0).

(** The literal [400.7] as a binary64 value. *)
Definition rate_400_7 : spec_float := S754_finite false 7049188947997491 (-44).

Definition f1 : spec_float := float_lit 1 1.
Definition f318 : spec_float := float_lit 318 1.
Definition f334 : spec_float := float_lit 334 1.
Definition f400 : spec_float := float_lit 400 1.
Definition f420 : spec_float := float_lit 420 1.

(** A container around one [ElectricalSeries], one epoch table and one
    ["bad"] column. *)
Definition container (rate : spec_float) (data : Np.ndarray)
    (epochs : list (spec_float * spec_float)) (bad : list bool) : Nwb.NWBFile :=
  {| Nwb.acquisition :=
       {[ "ElectricalSeries" :=
            {| Nwb.rate := rate; Nwb.data := data |} ]};
     Nwb.epochs :=
       {| Nwb.start_time := map fst epochs; Nwb.stop_time := map snd epochs |};
     Nwb.electrodes := {| Nwb.bad := bad |} |}.

(** A recording of [n] samples on one channel: sample [i] holds [i + 1]. *)
Definition ramp (n : nat) : Np.ndarray :=
  {| Np.ncols := 1;
     Np.rows := map (fun i => [S754_finite false (Pos.of_succ_nat i) 0]) (seq 0 n) |}.

(** Three samples on one channel, sampled at 1 Hz. *)
Definition short_record : Nwb.NWBFile :=
  container f1 (ramp 3) [(f318, f334)] [false].

(** 32080 samples on one channel, sampled at 400.7 Hz. *)
Definition long_record : Nwb.NWBFile :=
  container rate_400_7 (ramp (Z.to_nat 32080)) [(f318, f334)] [false].

(** An epoch table of two rows. *)
Definition two_epochs : Nwb.NWBFile :=
  container f1 (ramp 3) [(f318, f334); (f400, f420)] [false].

(** A container without any epoch. *)
Definition no_epoch : Nwb.NWBFile :=
  container f1 (ramp 3) [] [false].

(** Eight electrodes, those at positions 3 and 7 flagged. *)
Definition bad_3_7 : Nwb.NWBFile :=
  container f1 (ramp 3) [(f318, f334)]
    [false; false; false; true; false; false; false; true].

(** A 2 x 3 array. *)
Definition a23 : Np.ndarray :=
  {| Np.ncols := 3;
     Np.rows := [[f1; f318; f334]; [f400; f420; f1]] |}.

(** A world holding [nwb] at the notebook's path, no handle open. *)
Definition disk (nwb : Nwb.NWBFile) : Nwb.world :=
  {| Nwb.files := {[ Notebook.filepath := nwb ]}; Nwb.open_handles := [] |}.

(** A container whose acquisition dict is empty. *)
Definition no_series : Nwb.NWBFile :=
  {| Nwb.acquisition := ∅;
     Nwb.epochs := {| Nwb.start_time := []; Nwb.stop_time := [] |};
     Nwb.electrodes := {| Nwb.bad := [] |} |}.

(** A series whose stored rate is not a number. *)
Definition nan_rate : Nwb.NWBFile :=
  container S754_nan (ramp 3) [] [false].

(** Two electrodes, the second one flagged, over a one-channel series. *)
Definition bad_beyond_channels : Nwb.NWBFile :=
  container f1 (ramp 3) [(f318, f334)] [false; true].

(** Six samples on one channel, sampled at 2 Hz. *)
Definition six_at_2Hz : Nwb.NWBFile :=
  container (float_lit 2 1) (ramp 6) [(f318, f334)] [true].

End Ex.

(** * Properties *)

(** ** The definitions on small inputs *)

Example round_half : Py.round (Ex.float_lit 1 2) = inr 0.
Proof. reflexivity. Qed.

Example round_three_halves : Py.round (Ex.float_lit 3 2) = inr 2.
Proof. reflexivity. Qed.

Example round_five_halves : Py.round (Ex.float_lit 5 2) = inr 2.
Proof. reflexivity. Qed.

Example round_minus_five_halves :
  Py.round (SFopp (Ex.float_lit 5 2)) = inr (-2).
Proof. reflexivity. Qed.

Example round_nan : Py.round S754_nan = inl Py.ValueError.
Proof. reflexivity. Qed.

Example round_inf : Py.round (S754_infinity false) = inl Py.OverflowError.
Proof. reflexivity. Qed.

Example slice_inside : Py.slice [10; 11; 12; 13; 14] 1 3 = [11; 12].
Proof. reflexivity. Qed.

Example slice_clamped : Py.slice [10; 11; 12; 13; 14] 3 9 = [13; 14].
Proof. reflexivity. Qed.

Example slice_from_the_end : Py.slice [10; 11; 12; 13; 14] (-2) 5 = [13; 14].
Proof. reflexivity. Qed.

Example slice_reversed : Py.slice [10; 11; 12; 13; 14] 4 2 = [].
Proof. reflexivity. Qed.

Example str_255 : Py.str 255 = "255"%string.
Proof. reflexivity. Qed.

Example bads_3_7 : Notebook.bads Ex.bad_3_7 = ["3"; "7"]%string.
Proof. reflexivity. Qed.

Example T_a23 :
  Np.T Ex.a23 =
    {| Np.ncols := 2;
       Np.rows := [[Ex.f1; Ex.f400]; [Ex.f318; Ex.f420]; [Ex.f334; Ex.f1]] |}.
Proof. reflexivity. Qed.

Example notebook_on_short_record :
  fst (Notebook.pipeline Notebook.filepath 1 2 (Ex.disk Ex.short_record)) =
    inr {| Notebook.out_signal :=
             {| Np.ncols := 1;
                Np.rows := [[S754_finite false 2 0]; [S754_finite false 3 0]] |};
           Notebook.out_break := (Ex.f318, Ex.f334);
           Notebook.out_bads := [];
           Notebook.out_raw :=
             {| Mne.raw_data :=
                  {| Np.ncols := 2;
                     Np.rows := [[S754_finite false 2 0; S754_finite false 3 0]] |};
                Mne.raw_info :=
                  {| Mne.ch_names := ["0"%string];
                     Mne.sfreq := 1;
                     Mne.ch_types := "ecog";
                     Mne.bads := [] |} |} |}.
Proof. reflexivity. Qed.

(** ** Slices *)

Section Slice.
Context {A : Type}.
Implicit Types (l : list A) (lo hi : Z).

Lemma adjust_index_nonneg i len : 0 <= i -> Py.adjust_index i len = Z.min i len.
Proof.
  intros Hi. unfold Py.adjust_index.
  destruct (Z.ltb_spec i 0); [lia | reflexivity].
Qed.

(** With non-negative bounds a slice keeps the items from [min lo len] up
    to [min hi len]. *)
Lemma slice_nonneg l lo hi :
  0 <= lo -> 0 <= hi ->
  let len := Z.of_nat (length l) in
  Py.slice l lo hi =
    take (Z.to_nat (Z.min hi len - Z.min lo len)) (drop (Z.to_nat (Z.min lo len)) l).
Proof.
  intros Hlo Hhi len. unfold Py.slice. fold len.
  rewrite !adjust_index_nonneg by assumption. reflexivity.
Qed.

Lemma slice_length l lo hi :
  0 <= lo <= hi ->
  let len := Z.of_nat (length l) in
  Z.of_nat (length (Py.slice l lo hi)) = Z.min hi len - Z.min lo len.
Proof.
  intros H len. rewrite slice_nonneg by lia. fold len.
  rewrite length_take, length_drop. lia.
Qed.

Lemma slice_lookup l lo hi (i : nat) :
  0 <= lo <= hi ->
  let len := Z.of_nat (length l) in
  Z.of_nat i < Z.min hi len - Z.min lo len ->
  Py.slice l lo hi !! i = l !! (Z.to_nat (Z.min lo len) + i)%nat.
Proof.
  intros H len Hi. rewrite slice_nonneg by lia. fold len.
  rewrite lookup_take_lt by lia. apply lookup_drop.
Qed.

End Slice.

(** ** Rounding *)

(** [round_half_even_shift m k] is an integer nearest to [m / 2^k], and the
    even one of the two when [m / 2^k] lies half way between them. *)
Lemma round_half_even_shift_nearest (m k : Z) :
  0 <= k ->
  let r := Py.round_half_even_shift m k in
  2 * Z.abs (r * 2 ^ k - m) <= 2 ^ k /\
  (2 * Z.abs (r * 2 ^ k - m) = 2 ^ k -> Z.even r = true).
Proof.
  intros Hk. unfold Py.round_half_even_shift.
  assert (Hd : 0 < 2 ^ k) by (apply Z.pow_pos_nonneg; lia).
  pose proof (Z.div_mod m (2 ^ k) ltac:(lia)) as Hdm.
  pose proof (Z.mod_pos_bound m (2 ^ k) Hd) as Hrem.
  set (d := 2 ^ k) in *. set (q := m / d) in *. set (rem := m mod d) in *.
  destruct (Z.compare_spec (2 * rem) d) as [He | Hl | Hg].
  - destruct (Z.even q) eqn:Hq.
    + split; [nia | intros _; exact Hq].
    + split; [nia | intros _].
      rewrite Z.add_1_r, Z.even_succ, <- Z.negb_even, Hq. reflexivity.
  - split; [nia | intros Habs; nia].
  - split; [nia | intros Habs; nia].
Qed.

Lemma round_magnitude_nonneg (m : positive) (e : Z) : 0 <= Py.round_magnitude m e.
Proof.
  unfold Py.round_magnitude. destruct (Z.leb_spec 0 e) as [He | He].
  - apply Z.mul_nonneg_nonneg; [lia | apply Z.pow_nonneg; lia].
  - unfold Py.round_half_even_shift.
    assert (Hd : 0 < 2 ^ (- e)) by (apply Z.pow_pos_nonneg; lia).
    assert (Hq : 0 <= Z.pos m / 2 ^ (- e)) by (apply Z.div_pos; lia).
    destruct (2 * (Z.pos m mod 2 ^ (- e)) ?= 2 ^ (- e)); [| lia | lia].
    destruct (Z.even _); lia.
Qed.

(** A float that is not negative rounds to an integer that is not negative. *)
Lemma round_positive_rate (m : positive) (e : Z) :
  exists r, Py.round (S754_finite false m e) = inr r /\ 0 <= r.
Proof.
  eexists. split; [reflexivity |]. apply round_magnitude_nonneg.
Qed.

(** The literal [400.7] denotes [Ex.rate_400_7]. *)
Lemma rate_400_7_is_literal : Ex.float_lit 4007 10 = Ex.rate_400_7.
Proof. vm_compute. reflexivity. Qed.

(** ** Window extraction *)

(** The window extraction of a container that holds the series [es]. *)
Lemma extract_eq (nwb : Nwb.NWBFile) (es : Nwb.ElectricalSeries) (start num_secs : Z) :
  Nwb.acquisition nwb !! "ElectricalSeries" = Some es ->
  Notebook.extract nwb start num_secs =
    (r <- Py.round (Nwb.rate es) ;;
     Py.ret (Np.getitem_rows (Nwb.data es) (start * r) ((start + num_secs) * r))).
Proof.
  intros Hes. unfold Notebook.extract, Notebook.fs, Notebook.signal, Nwb.getitem.
  rewrite Hes. simpl. destruct (Py.round (Nwb.rate es)); reflexivity.
Qed.

(** A window that lies inside the record: the shape and the rows of what the
    extraction returns. *)
Lemma extract_window
    (nwb : Nwb.NWBFile) (es : Nwb.ElectricalSeries)
    (total_samples channel_count : nat) (start num_secs r : Z) :
  Nwb.acquisition nwb !! "ElectricalSeries" = Some es ->
  Np.shape (Nwb.data es) = (total_samples, channel_count) ->
  Py.round (Nwb.rate es) = inr r ->
  0 <= r -> 0 <= start -> 0 <= num_secs ->
  (start + num_secs) * r <= Z.of_nat total_samples ->
  exists signal,
    Notebook.extract nwb start num_secs = inr signal /\
    Np.shape signal = (Z.to_nat (num_secs * r), channel_count) /\
    (forall i : nat, Z.of_nat i < num_secs * r ->
       Np.rows signal !! i =
       Np.rows (Nwb.data es) !! (Z.to_nat (r * start) + i)%nat) /\
    (Np.wf (Nwb.data es) -> Np.wf signal).
Proof.
  intros Hes Hshape Hround Hr Hs Hn Hup.
  rewrite (extract_eq _ es) by assumption. rewrite Hround. simpl.
  eexists. split; [reflexivity |].
  unfold Np.shape in Hshape. injection Hshape as Hlen Hcols.
  assert (Hlo : 0 <= start * r <= (start + num_secs) * r) by nia.
  pose proof (slice_length (Np.rows (Nwb.data es)) _ _ Hlo) as Hsl.
  cbv zeta in Hsl. rewrite Hlen in Hsl.
  split; [| split].
  - unfold Np.shape, Np.getitem_rows. simpl. f_equal; [| assumption]. lia.
  - intros i Hi. unfold Np.getitem_rows. simpl.
    rewrite slice_lookup by (try rewrite Hlen; lia).
    rewrite Hlen. f_equal. lia.
  - unfold Np.wf, Np.getitem_rows. simpl. intros Hwf.
    rewrite slice_nonneg by lia.
    apply Forall_take, Forall_drop, Hwf.
Qed.


(** C1: for a record of [total_samples] rows and [channel_count] columns, a
    rate that rounds to [r >= 0] and a window [start >= 0], [num_secs >= 0]
    with [(start + num_secs) * r <= total_samples], the extraction returns
    an array of shape [(num_secs * r, channel_count)] whose row [i] is row
    [r * start + i] of the record, all channels included: the half-open
    slice from [r * start] to [r * (start + num_secs)]. *)
Theorem extract_in_range
    (nwb : Nwb.NWBFile) (es : Nwb.ElectricalSeries)
    (total_samples channel_count : nat) (start num_secs r : Z) :
  Nwb.acquisition nwb !! "ElectricalSeries" = Some es ->
  Np.shape (Nwb.data es) = (total_samples, channel_count) ->
  Py.round (Nwb.rate es) = inr r ->
  0 <= r -> 0 <= start -> 0 <= num_secs ->
  (start + num_secs) * r <= Z.of_nat total_samples ->
  exists signal,
    Notebook.extract nwb start num_secs = inr signal /\
    Np.shape signal = (Z.to_nat (num_secs * r), channel_count) /\
    (forall i : nat, Z.of_nat i < num_secs * r ->
       Np.rows signal !! i =
       Np.rows (Nwb.data es) !! (Z.to_nat (r * start) + i)%nat) /\
    (Np.wf (Nwb.data es) -> Np.wf signal).
Proof. apply extract_window. Qed.

Lemma extract_in_range_witness :
  exists signal,
    Notebook.extract Ex.short_record 1 2 = inr signal /\
    Np.shape signal = (Z.to_nat (2 * 1), 1%nat) /\
    (forall i : nat, Z.of_nat i < 2 * 1 ->
       Np.rows signal !! i = Np.rows (Ex.ramp 3) !! (Z.to_nat (1 * 1) + i)%nat) /\
    (Np.wf (Ex.ramp 3) -> Np.wf signal).
Proof.
  apply (extract_in_range Ex.short_record
           {| Nwb.rate := Ex.f1; Nwb.data := Ex.ramp 3 |} 3 1 1 2 1).
  - reflexivity.
  - reflexivity.
  - reflexivity.
  - lia.
  - lia.
  - lia.
  - simpl. lia.
Defined.

(** C2, as stated, fails: on a record of 3 samples at 1 Hz the window
    [start = 1], [num_secs = 5] has the upper bound 6 > 3, and the
    extraction raises nothing: it returns the 2 rows that are left. *)
Lemma extract_past_end_truncates :
  (1 + 5) * 1 > Z.of_nat (fst (Np.shape (Ex.ramp 3))) /\
  Py.round Ex.f1 = inr 1 /\
  Notebook.extract Ex.short_record 1 5 =
    inr {| Np.ncols := 1;
           Np.rows := [[S754_finite false 2 0]; [S754_finite false 3 0]] |} /\
  ~ (exists e, Notebook.extract Ex.short_record 1 5 = inl e).
Proof.
  split; [simpl; lia |]. split; [reflexivity |].
  assert (H : Notebook.extract Ex.short_record 1 5 =
    inr {| Np.ncols := 1;
           Np.rows := [[S754_finite false 2 0]; [S754_finite false 3 0]] |})
    by reflexivity.
  split; [exact H |]. intros [e He]. rewrite H in He. discriminate He.
Qed.

(** C2, amended: when the upper bound [(start + num_secs) * r] exceeds the
    [total_samples] of the record (with [r >= 0], [start >= 0] and
    [num_secs >= 0]), the extraction raises nothing: it returns the rows
    from [min (start * r) total_samples] to the end of the record, an array
    of shape [(total_samples - min (start * r) total_samples, channel_count)],
    which for [num_secs > 0] has fewer than [num_secs * r] rows. *)
Theorem extract_past_end
    (nwb : Nwb.NWBFile) (es : Nwb.ElectricalSeries)
    (total_samples channel_count : nat) (start num_secs r : Z) :
  Nwb.acquisition nwb !! "ElectricalSeries" = Some es ->
  Np.shape (Nwb.data es) = (total_samples, channel_count) ->
  Py.round (Nwb.rate es) = inr r ->
  0 <= r -> 0 <= start -> 0 <= num_secs ->
  Z.of_nat total_samples < (start + num_secs) * r ->
  let lo := Z.min (start * r) (Z.of_nat total_samples) in
  exists signal,
    Notebook.extract nwb start num_secs = inr signal /\
    Np.shape signal = (Z.to_nat (Z.of_nat total_samples - lo), channel_count) /\
    Np.rows signal = drop (Z.to_nat lo) (Np.rows (Nwb.data es)) /\
    (0 < num_secs -> Z.of_nat (fst (Np.shape signal)) < num_secs * r).
Proof.
  intros Hes Hshape Hround Hr Hs Hn Hup lo.
  rewrite (extract_eq _ es) by assumption. rewrite Hround. simpl.
  eexists. split; [reflexivity |].
  unfold Np.shape in Hshape. injection Hshape as Hlen Hcols.
  assert (Hlo : 0 <= start * r <= (start + num_secs) * r) by nia.
  assert (Hrows : Py.slice (Np.rows (Nwb.data es)) (start * r) ((start + num_secs) * r)
                  = drop (Z.to_nat lo) (Np.rows (Nwb.data es))).
  { rewrite slice_nonneg by lia. rewrite Hlen. fold lo.
    apply take_ge. rewrite length_drop. lia. }
  unfold Np.shape, Np.getitem_rows. simpl. rewrite Hrows, length_drop, Hlen.
  split; [| split].
  - f_equal; [lia | assumption].
  - reflexivity.
  - intros Hpos. subst lo. nia.
Qed.

Lemma extract_past_end_witness :
  exists signal,
    Notebook.extract Ex.short_record 1 5 = inr signal /\
    Np.shape signal = (Z.to_nat (Z.of_nat 3 - Z.min (1 * 1) (Z.of_nat 3)), 1%nat) /\
    Np.rows signal = drop (Z.to_nat (Z.min (1 * 1) (Z.of_nat 3))) (Np.rows (Ex.ramp 3)) /\
    (0 < 5 -> Z.of_nat (fst (Np.shape signal)) < 5 * 1).
Proof.
  apply (extract_past_end Ex.short_record
           {| Nwb.rate := Ex.f1; Nwb.data := Ex.ramp 3 |} 3 1 1 5 1).
  - reflexivity.
  - reflexivity.
  - reflexivity.
  - lia.
  - lia.
  - lia.
  - simpl. lia.
Defined.

(** C7: the sample bounds are computed from [round(rate)] alone, [round]
    returns an integer nearest to the stored rate (the even one on a tie),
    [round(400.7)] is 401, and on a record sampled at 400.7 Hz that holds the
    window [start = 20], [num_secs = 60] (at least 32080 samples) the
    extracted array has exactly 24060 time samples. *)
Theorem extract_rounds_rate
    (nwb : Nwb.NWBFile) (es : Nwb.ElectricalSeries) (start num_secs : Z) :
  Nwb.acquisition nwb !! "ElectricalSeries" = Some es ->
  (Notebook.extract nwb start num_secs =
     (r <- Py.round (Nwb.rate es) ;;
      Py.ret (Np.getitem_rows (Nwb.data es) (start * r) ((start + num_secs) * r)))) /\
  (forall (s : bool) (m : positive) (e r : Z),
     Nwb.rate es = S754_finite s m e ->
     Py.round (Nwb.rate es) = inr r ->
     let v := if s then Z.neg m else Z.pos m in
     (0 <= e -> r = v * 2 ^ e) /\
     (e < 0 ->
        2 * Z.abs (r * 2 ^ (- e) - v) <= 2 ^ (- e) /\
        (2 * Z.abs (r * 2 ^ (- e) - v) = 2 ^ (- e) -> Z.even r = true))) /\
  Py.round Ex.rate_400_7 = inr 401 /\
  (Nwb.rate es = Ex.rate_400_7 ->
   (20 + 60) * 401 <= Z.of_nat (fst (Np.shape (Nwb.data es))) ->
   exists signal,
     Notebook.extract nwb 20 60 = inr signal /\
     Z.of_nat (fst (Np.shape signal)) = 24060).
Proof.
  intros Hes. split; [apply extract_eq; assumption |]. split; [| split].
  - intros s m e r Hrate Hround v. rewrite Hrate in Hround. simpl in Hround.
    injection Hround as Hr. unfold Py.round_magnitude in Hr.
    split.
    + intros He. destruct (Z.leb_spec 0 e); [| lia].
      subst r v. destruct s; [rewrite <- Z.mul_opp_l |]; reflexivity.
    + intros He. destruct (Z.leb_spec 0 e); [lia |].
      pose proof (round_half_even_shift_nearest (Z.pos m) (- e) ltac:(lia)) as [Hn Ht].
      cbv zeta in Hn, Ht.
      set (n := Py.round_half_even_shift (Z.pos m) (- e)) in *.
      subst r v. destruct s.
      * replace (- n * 2 ^ (- e) - Z.neg m) with (- (n * 2 ^ (- e) - Z.pos m)) by lia.
        rewrite Z.abs_opp, Z.even_opp. split; assumption.
      * split; assumption.
  - reflexivity.
  - intros Hrate Htotal.
    assert (Hround : Py.round (Nwb.rate es) = inr 401) by (rewrite Hrate; reflexivity).
    destruct (extract_window nwb es _ _ 20 60 401 Hes eq_refl Hround)
      as (signal & Hex & Hshape & _); [lia | lia | lia | exact Htotal |].
    exists signal. split; [exact Hex |]. rewrite Hshape. simpl. lia.
Qed.

Lemma extract_rounds_rate_witness :
  Py.round Ex.rate_400_7 = inr 401 /\
  exists signal,
    Notebook.extract Ex.long_record 20 60 = inr signal /\
    Z.of_nat (fst (Np.shape signal)) = 24060.
Proof.
  destruct (extract_rounds_rate Ex.long_record
              {| Nwb.rate := Ex.rate_400_7; Nwb.data := Ex.ramp (Z.to_nat 32080) |}
              20 60 eq_refl) as (_ & _ & H401 & Hex).
  split; [exact H401 |].
  apply Hex; [reflexivity | vm_compute; discriminate].
Defined.

(** ** Loading the container *)

Lemma nwb_found (path : string) (w : Nwb.world) (f : Nwb.NWBFile) :
  Nwb.files w !! path = Some f ->
  Notebook.nwb path w =
    (inr f, {| Nwb.files := Nwb.files w;
               Nwb.open_handles := path :: Nwb.open_handles w |}).
Proof.
  intros Hf. unfold Notebook.nwb, Nwb.NWBHDF5IO, Nwb.read, Nwb.getitem.
  rewrite Hf. simpl. rewrite Hf. reflexivity.
Qed.

Lemma nwb_missing (path : string) (w : Nwb.world) :
  Nwb.files w !! path = None ->
  Notebook.nwb path w = (inl Py.FileNotFoundError, w).
Proof.
  intros Hf. unfold Notebook.nwb, Nwb.NWBHDF5IO. rewrite Hf. reflexivity.
Qed.

Lemma pipeline_found (path : string) (start num_secs : Z) (w : Nwb.world)
    (f : Nwb.NWBFile) :
  Nwb.files w !! path = Some f ->
  Notebook.pipeline path start num_secs w =
    (Notebook.cells f start num_secs,
     {| Nwb.files := Nwb.files w;
        Nwb.open_handles := path :: Nwb.open_handles w |}).
Proof.
  intros Hf. unfold Notebook.pipeline. rewrite (nwb_found _ _ f Hf). reflexivity.
Qed.

Lemma pipeline_missing (path : string) (start num_secs : Z) (w : Nwb.world) :
  Nwb.files w !! path = None ->
  Notebook.pipeline path start num_secs w = (inl Py.FileNotFoundError, w).
Proof.
  intros Hf. unfold Notebook.pipeline. rewrite (nwb_missing _ _ Hf). reflexivity.
Qed.

(** ** The baseline interval *)

(** C3: when the epoch table has at least one row, [read_baseline] returns
    the (start_time, stop_time) pair of its first row, whatever the later
    rows are. *)
Theorem read_baseline_first_row
    (nwb : Nwb.NWBFile) (row : spec_float * spec_float)
    (later : list (spec_float * spec_float)) :
  Nwb.epoch_rows (Nwb.epochs nwb) = row :: later ->
  Notebook.read_baseline nwb = inr row.
Proof.
  unfold Nwb.epoch_rows, Notebook.read_baseline, Notebook.start_break,
    Notebook.stop_break.
  destruct (Nwb.start_time (Nwb.epochs nwb)) as [| a starts];
    destruct (Nwb.stop_time (Nwb.epochs nwb)) as [| b stops];
    simpl; intros Hrows; try discriminate Hrows.
  injection Hrows as Hrow _. rewrite <- Hrow. reflexivity.
Qed.

(** On the rows [(318.0, 334.0), (400.0, 420.0)] the baseline is
    (318.0, 334.0). *)
Lemma read_baseline_first_row_witness :
  Nwb.epoch_rows (Nwb.epochs Ex.two_epochs) =
    [(Ex.f318, Ex.f334); (Ex.f400, Ex.f420)] /\
  Notebook.read_baseline Ex.two_epochs = inr (Ex.f318, Ex.f334).
Proof.
  split; [reflexivity |].
  apply (read_baseline_first_row Ex.two_epochs (Ex.f318, Ex.f334)
           [(Ex.f400, Ex.f420)]).
  reflexivity.
Defined.

(** C4: when the epoch table has no row, [read_baseline] raises (Python's
    [IndexError], from indexing an empty column at 0), and the run ends in
    an exception without any output: in [IndexError] itself once the window
    has been extracted. *)
Theorem read_baseline_empty (nwb : Nwb.NWBFile) :
  Nwb.epoch_rows (Nwb.epochs nwb) = [] ->
  Notebook.read_baseline nwb = inl Py.IndexError /\
  (forall start num_secs : Z,
     (exists e, Notebook.cells nwb start num_secs = inl e) /\
     (forall signal, Notebook.extract nwb start num_secs = inr signal ->
        Notebook.cells nwb start num_secs = inl Py.IndexError)) /\
  (forall (path : string) (start num_secs : Z) (w : Nwb.world),
     Nwb.files w !! path = Some nwb ->
     exists e, fst (Notebook.pipeline path start num_secs w) = inl e).
Proof.
  intros Hrows.
  assert (Hbase : Notebook.read_baseline nwb = inl Py.IndexError).
  { revert Hrows.
    unfold Nwb.epoch_rows, Notebook.read_baseline, Notebook.start_break,
      Notebook.stop_break.
    destruct (Nwb.start_time (Nwb.epochs nwb)) as [| a starts];
      destruct (Nwb.stop_time (Nwb.epochs nwb)) as [| b stops];
      simpl; intros Hrows; try discriminate Hrows; reflexivity. }
  assert (Hcells : forall start num_secs,
            (exists e, Notebook.cells nwb start num_secs = inl e) /\
            (forall signal, Notebook.extract nwb start num_secs = inr signal ->
               Notebook.cells nwb start num_secs = inl Py.IndexError)).
  { intros start num_secs. revert Hbase.
    unfold Notebook.cells, Notebook.extract, Notebook.read_baseline.
    destruct (Notebook.fs nwb) as [e | r]; simpl.
    - intros _. split; [eauto | intros signal H; discriminate H].
    - destruct (Notebook.signal nwb start num_secs r) as [e | sig]; simpl.
      + intros _. split; [eauto | intros signal H; discriminate H].
      + destruct (Notebook.start_break nwb) as [e | a]; simpl.
        * intros He. injection He as ->. split; [eauto | reflexivity].
        * destruct (Notebook.stop_break nwb) as [e | b]; simpl.
          -- intros He. injection He as ->. split; [eauto | reflexivity].
          -- intros He. discriminate He. }
  split; [exact Hbase |]. split; [exact Hcells |].
  intros path start num_secs w Hf.
  rewrite (pipeline_found _ _ _ _ nwb Hf). simpl.
  apply Hcells.
Qed.

Lemma read_baseline_empty_witness :
  Notebook.read_baseline Ex.no_epoch = inl Py.IndexError /\
  fst (Notebook.notebook (Ex.disk Ex.no_epoch)) = inl Py.IndexError.
Proof.
  destruct (read_baseline_empty Ex.no_epoch eq_refl) as (Hbase & Hcells & _).
  split; [exact Hbase |].
  unfold Notebook.notebook.
  rewrite (pipeline_found Notebook.filepath Notebook.start Notebook.num_secs
             (Ex.disk Ex.no_epoch) Ex.no_epoch eq_refl).
  simpl.
  apply (proj2 (Hcells Notebook.start Notebook.num_secs) (Ex.ramp 0)).
  reflexivity.
Defined.

(** ** The invalid channels *)

(** [int(str(i))] is [i]. *)
Lemma int_str (i : nat) : Py.int (Py.str i) = Some i.
Proof.
  unfold Py.int, Py.str.
  assert (Hnn : Nat.to_uint i <> Decimal.Nil).
  { rewrite <- (Unsigned.of_to i) at 1. rewrite Unsigned.to_of.
    apply DecimalFacts.unorm_nonnil. }
  rewrite (NilZero.usu _ Hnn). f_equal. apply Unsigned.of_to.
Qed.

Lemma str_inj (i j : nat) : Py.str i = Py.str j -> i = j.
Proof.
  intros H. apply (f_equal Py.int) in H. rewrite !int_str in H.
  injection H as H. exact H.
Qed.

Lemma bads_kept_indices (nwb : Nwb.NWBFile) :
  Notebook.bads nwb =
    map Py.str (Notebook.kept_indices 0 (Nwb.bad (Nwb.electrodes nwb))).
Proof.
  unfold Notebook.bads, Notebook.kept_indices, Py.enumerate.
  rewrite map_map. apply map_ext. intros [i b]. reflexivity.
Qed.

Lemma kept_indices_cons (n : nat) (b : bool) (flags : list bool) :
  Notebook.kept_indices n (b :: flags) =
    if b then n :: Notebook.kept_indices (S n) flags
    else Notebook.kept_indices (S n) flags.
Proof.
  unfold Notebook.kept_indices. simpl. rewrite filter_cons.
  destruct b; simpl.
  - destruct (decide (true = true)); [reflexivity | congruence].
  - destruct (decide (false = true)); [congruence | reflexivity].
Qed.

(** An index is kept exactly when its flag is set. *)
Lemma kept_indices_elem (flags : list bool) (n i : nat) :
  i ∈ Notebook.kept_indices n flags <->
  (n <= i)%nat /\ flags !! (i - n)%nat = Some true.
Proof.
  revert n. induction flags as [| b flags IH]; intros n.
  - unfold Notebook.kept_indices. simpl. split.
    + intros H. inversion H.
    + intros [_ H]. discriminate H.
  - rewrite kept_indices_cons.
    assert (Hrest : i ∈ Notebook.kept_indices (S n) flags <->
                    (n < i)%nat /\ (b :: flags) !! (i - n)%nat = Some true).
    { rewrite IH. split.
      - intros [Hle Hf]. split; [lia |].
        replace (i - n)%nat with (S (i - S n)) by lia. exact Hf.
      - intros [Hlt Hf]. split; [lia |].
        replace (i - n)%nat with (S (i - S n)) in Hf by lia. exact Hf. }
    destruct b.
    + rewrite elem_of_cons, Hrest. split.
      * intros [-> | [Hlt Hf]]; [| split; [lia | exact Hf]].
        split; [lia |]. rewrite Nat.sub_diag. reflexivity.
      * intros [Hle Hf]. destruct (decide (i = n)) as [-> | Hne]; [left; reflexivity |].
        right. split; [lia | exact Hf].
    + rewrite Hrest. split.
      * intros [Hlt Hf]. split; [lia | exact Hf].
      * intros [Hle Hf]. destruct (decide (i = n)) as [-> | Hne].
        -- rewrite Nat.sub_diag in Hf. discriminate Hf.
        -- split; [lia | exact Hf].
Qed.

(** The kept indices come in increasing order. *)
Lemma kept_indices_sorted (flags : list bool) (n : nat) :
  StronglySorted lt (Notebook.kept_indices n flags).
Proof.
  revert n. induction flags as [| b flags IH]; intros n.
  - constructor.
  - rewrite kept_indices_cons. destruct b; [| apply IH].
    constructor; [apply IH |].
    apply Forall_forall. intros i Hi.
    apply kept_indices_elem in Hi. lia.
Qed.

Lemma kept_indices_length (flags : list bool) (n : nat) :
  (length (Notebook.kept_indices n flags) <= length flags)%nat.
Proof.
  revert n. induction flags as [| b flags IH]; intros n; [reflexivity |].
  rewrite kept_indices_cons. specialize (IH (S n)).
  destruct b; simpl; lia.
Qed.

(** Two increasing lists with the same members are the same list. *)
Lemma sorted_lt_ext (l1 l2 : list nat) :
  StronglySorted lt l1 -> StronglySorted lt l2 ->
  (forall i, i ∈ l1 <-> i ∈ l2) -> l1 = l2.
Proof.
  revert l2. induction l1 as [| a l1 IH]; intros [| b l2] H1 H2 Hmem.
  - reflexivity.
  - exfalso. assert (H : b ∈ []) by (apply Hmem; left). inversion H.
  - exfalso. assert (H : a ∈ []) by (apply Hmem; left). inversion H.
  - apply StronglySorted_inv in H1 as [H1 Ha].
    apply StronglySorted_inv in H2 as [H2 Hb].
    rewrite Forall_forall in Ha, Hb.
    assert (Hab : a = b).
    { assert (Ha' : a ∈ b :: l2) by (apply Hmem; left).
      assert (Hb' : b ∈ a :: l1) by (apply Hmem; left).
      apply elem_of_cons in Ha' as [Ha' | Ha']; [exact Ha' |].
      apply elem_of_cons in Hb' as [Hb' | Hb']; [symmetry; exact Hb' |].
      apply Hb in Ha'. apply Ha in Hb'. lia. }
    subst b. f_equal. apply IH; [assumption | assumption |].
    intros i. split; intros Hi.
    + assert (Hi' : i ∈ a :: l2) by (apply Hmem; right; exact Hi).
      apply elem_of_cons in Hi' as [-> | Hi']; [| exact Hi'].
      apply Ha in Hi. lia.
    + assert (Hi' : i ∈ a :: l1) by (apply Hmem; right; exact Hi).
      apply elem_of_cons in Hi' as [-> | Hi']; [| exact Hi'].
      apply Hb in Hi. lia.
Qed.

(** The kept indices, counted from 0, are determined by the flags. *)
Lemma kept_indices_unique (flags : list bool) (idx : list nat) :
  StronglySorted lt idx ->
  (forall i, i ∈ idx <-> flags !! i = Some true) ->
  Notebook.kept_indices 0 flags = idx.
Proof.
  intros Hsorted Hmem. apply sorted_lt_ext.
  - apply kept_indices_sorted.
  - exact Hsorted.
  - intros i. rewrite kept_indices_elem, Hmem, Nat.sub_0_r.
    split; [intros [_ H]; exact H | intros H; split; [lia | exact H]].
Qed.

(** C5: [read_invalid_channels] returns the decimal strings of exactly the
    indices whose ["bad"] flag is set, in increasing index order (the order
    of the table's rows); it returns the empty list when no flag is set and
    ["3"; "7"] when the flags at positions 3 and 7, and no others, are set. *)
Theorem read_invalid_channels_flagged (nwb : Nwb.NWBFile) :
  let flags := Nwb.bad (Nwb.electrodes nwb) in
  (exists idx : list nat,
     Notebook.read_invalid_channels nwb = map Py.str idx /\
     StronglySorted lt idx /\
     (forall i : nat, i ∈ idx <-> flags !! i = Some true)) /\
  ((forall i : nat, flags !! i <> Some true) ->
     Notebook.read_invalid_channels nwb = []) /\
  ((forall i : nat, flags !! i = Some true <-> i = 3%nat \/ i = 7%nat) ->
     Notebook.read_invalid_channels nwb = ["3"; "7"]%string).
Proof.
  intros flags. unfold Notebook.read_invalid_channels.
  rewrite bads_kept_indices. fold flags.
  split; [| split].
  - exists (Notebook.kept_indices 0 flags).
    split; [reflexivity |]. split; [apply kept_indices_sorted |].
    intros i. rewrite kept_indices_elem, Nat.sub_0_r.
    split; [intros [_ H]; exact H | intros H; split; [lia | exact H]].
  - intros Hnone. rewrite (kept_indices_unique flags []); [reflexivity | constructor |].
    intros i. split; [intros H; inversion H | intros H; destruct (Hnone i H)].
  - intros H37. rewrite (kept_indices_unique flags [3; 7]%nat); [reflexivity | |].
    + repeat constructor.
    + intros i. rewrite H37, !elem_of_cons, elem_of_nil. tauto.
Qed.

Lemma read_invalid_channels_flagged_witness :
  Notebook.read_invalid_channels Ex.bad_3_7 = ["3"; "7"]%string /\
  Notebook.read_invalid_channels Ex.short_record = [].
Proof.
  split.
  - apply (proj2 (proj2 (read_invalid_channels_flagged Ex.bad_3_7))).
    intros i. simpl.
    do 8 (destruct i as [| i]; [simpl; split; [intros H | intros [H | H]]; (discriminate H || (auto; fail)) |]).
    simpl. split; [intros H; discriminate H | intros [H | H]; discriminate H].
  - apply (proj1 (proj2 (read_invalid_channels_flagged Ex.short_record))).
    intros i. simpl. destruct i as [| i]; simpl; discriminate.
Defined.

(** C10: for a table of [N] electrodes, the invalid-channel list is the list
    of the decimal strings of natural numbers that are all below [N], each
    the index of a flagged row, pairwise distinct and strictly increasing;
    reading the strings back gives these numbers; and the list has at most
    [N] items. *)
Theorem bads_within_table (nwb : Nwb.NWBFile) :
  let flags := Nwb.bad (Nwb.electrodes nwb) in
  let N := length flags in
  exists idx : list nat,
    Notebook.bads nwb = map Py.str idx /\
    map Py.int (Notebook.bads nwb) = map Some idx /\
    Forall (fun i => (i < N)%nat /\ flags !! i = Some true) idx /\
    NoDup idx /\
    NoDup (Notebook.bads nwb) /\
    StronglySorted lt idx /\
    (length (Notebook.bads nwb) <= N)%nat.
Proof.
  intros flags N. exists (Notebook.kept_indices 0 flags).
  rewrite bads_kept_indices. fold flags.
  assert (Hsorted := kept_indices_sorted flags 0).
  assert (Hnodup : NoDup (Notebook.kept_indices 0 flags)).
  { clear -Hsorted. induction Hsorted as [| a l Hl IH Ha]; constructor; [| exact IH].
    intros Hin. rewrite Forall_forall in Ha. apply Ha in Hin. lia. }
  split; [reflexivity |]. split; [| split; [| split; [| split; [| split]]]].
  - rewrite map_map. apply map_ext. intros i. apply int_str.
  - apply Forall_forall. intros i Hi. apply kept_indices_elem in Hi as [_ Hi].
    rewrite Nat.sub_0_r in Hi. split; [| exact Hi].
    apply lookup_lt_Some in Hi. exact Hi.
  - exact Hnodup.
  - assert (Hinj : Inj eq eq Py.str) by (intros i j; apply str_inj).
    apply (NoDup_fmap_2 Py.str). exact Hnodup.
  - exact Hsorted.
  - rewrite length_map. apply kept_indices_length.
Qed.

(** ** The signal object *)

Lemma column_cons (j : nat) (r : list Np.sample) (rs : list (list Np.sample)) (x : Np.sample) :
  r !! j = Some x -> Np.column j (r :: rs) = x :: Np.column j rs.
Proof. intros Hx. unfold Np.column. simpl. rewrite Hx. reflexivity. Qed.

(** When every row reaches position [j], column [j] has one item per row:
    item [i] of the column is item [j] of row [i]. *)
Lemma column_lookup (j : nat) (rs : list (list Np.sample)) (i : nat) :
  Forall (fun r => (j < length r)%nat) rs ->
  Np.column j rs !! i =
    match rs !! i with
    | Some r => r !! j
    | None => None
    end.
Proof.
  intros Hrs. revert i. induction Hrs as [| r rs Hr _ IH]; intros i.
  - reflexivity.
  - destruct (lookup_lt_is_Some_2 r j Hr) as [x Hx].
    rewrite (column_cons _ _ _ _ Hx).
    destruct i as [| i]; simpl; [symmetry; exact Hx | apply IH].
Qed.

Lemma column_length (j : nat) (rs : list (list Np.sample)) :
  Forall (fun r => (j < length r)%nat) rs ->
  length (Np.column j rs) = length rs.
Proof.
  intros Hrs. induction Hrs as [| r rs Hr _ IH]; [reflexivity |].
  destruct (lookup_lt_is_Some_2 r j Hr) as [x Hx].
  rewrite (column_cons _ _ _ _ Hx). simpl. f_equal. exact IH.
Qed.

Lemma wf_reaches (a : Np.ndarray) (j : nat) :
  Np.wf a -> (j < Np.ncols a)%nat ->
  Forall (fun r => (j < length r)%nat) (Np.rows a).
Proof.
  unfold Np.wf. intros Hwf Hj. eapply Forall_impl; [exact Hwf |].
  simpl. intros r Hr. lia.
Qed.

Lemma T_rows_lookup (a : Np.ndarray) (c : nat) :
  Np.rows (Np.T a) !! c =
    if decide (c < Np.ncols a)%nat then Some (Np.column c (Np.rows a)) else None.
Proof.
  unfold Np.T. simpl. change (map ?f ?l) with (f <$> l).
  rewrite list_lookup_fmap. destruct (decide (c < Np.ncols a)%nat) as [Hc | Hc].
  - rewrite lookup_seq_lt by exact Hc. reflexivity.
  - rewrite lookup_seq_ge by lia. reflexivity.
Qed.

(** Transposition swaps the two indices of every item. *)
Lemma T_get (a : Np.ndarray) (t c : nat) :
  Np.wf a -> Np.get (Np.T a) c t = Np.get a t c.
Proof.
  intros Hwf. unfold Np.get. rewrite T_rows_lookup.
  destruct (decide (c < Np.ncols a)%nat) as [Hc | Hc].
  - apply column_lookup, wf_reaches; assumption.
  - destruct (Np.rows a !! t) as [r |] eqn:Hr; [| reflexivity].
    symmetry. apply lookup_ge_None.
    unfold Np.wf in Hwf. rewrite Forall_lookup in Hwf.
    rewrite (Hwf _ _ Hr). lia.
Qed.

Lemma T_wf (a : Np.ndarray) : Np.wf a -> Np.wf (Np.T a).
Proof.
  intros Hwf. unfold Np.wf. apply Forall_forall. intros col Hcol.
  unfold Np.T in Hcol. simpl in Hcol. change (map ?f ?l) with (f <$> l) in Hcol.
  apply list_elem_of_fmap in Hcol as (j & -> & Hj).
  apply elem_of_seq in Hj. simpl.
  apply column_length, wf_reaches; [exact Hwf | lia].
Qed.

(** What [create_info] followed by the assignment of the bads gives, and
    when. *)
Lemma info_inv (n_channels : nat) (fs : Z) (bads : list string) (info : Mne.Info) :
  Notebook.info n_channels fs bads = inr info ->
  0 < fs /\
  Forall (fun b => b ∈ map Py.str (seq 0 n_channels)) bads /\
  info = {| Mne.ch_names := map Py.str (seq 0 n_channels);
            Mne.sfreq := fs;
            Mne.ch_types := "ecog";
            Mne.bads := bads |}.
Proof.
  unfold Notebook.info, Mne.create_info, Mne.set_bads.
  destruct (Z.leb_spec fs 0) as [Hfs | Hfs]; simpl; [intros H; discriminate H |].
  destruct (decide (Forall _ bads)) as [Hall | Hall]; simpl;
    [| intros H; discriminate H].
  intros H. injection H as <-. split; [exact Hfs |]. split; [exact Hall | reflexivity].
Qed.


(** A sampling frequency that is not positive, or a bad that names no
    channel, makes the info cell raise [ValueError]. *)
Lemma info_raises (n_channels : nat) (fs : Z) (bads : list string) :
  fs <= 0 \/ ~ Forall (fun b => b ∈ map Py.str (seq 0 n_channels)) bads ->
  Notebook.info n_channels fs bads = inl Py.ValueError.
Proof.
  intros Hbad. unfold Notebook.info, Mne.create_info, Mne.set_bads.
  destruct (Z.leb_spec fs 0) as [Hle | Hlt]; [reflexivity |]. simpl.
  destruct (decide (Forall _ bads)) as [Hall | _]; [| reflexivity].
  destruct Hbad as [Hfs | Hno]; [lia | destruct (Hno Hall)].
Qed.




(** ** The container handle *)

(** C8, as stated, fails: a run over a well-formed container builds the
    signal object and ends with the handle it opened still open, and so does
    a run that aborts in a later cell (here for want of an epoch). *)
Lemma handle_left_open :
  Nwb.open_handles (Ex.disk Ex.short_record) = [] /\
  (exists out, fst (Notebook.notebook (Ex.disk Ex.short_record)) = inr out) /\
  Nwb.open_handles (snd (Notebook.notebook (Ex.disk Ex.short_record)))
    = [Notebook.filepath] /\
  fst (Notebook.notebook (Ex.disk Ex.no_epoch)) = inl Py.IndexError /\
  Nwb.open_handles (snd (Notebook.notebook (Ex.disk Ex.no_epoch)))
    = [Notebook.filepath].
Proof.
  unfold Notebook.notebook.
  rewrite (pipeline_found Notebook.filepath Notebook.start Notebook.num_secs
             (Ex.disk Ex.short_record) Ex.short_record eq_refl).
  rewrite (pipeline_found Notebook.filepath Notebook.start Notebook.num_secs
             (Ex.disk Ex.no_epoch) Ex.no_epoch eq_refl).
  split; [reflexivity |]. split; [eexists; reflexivity |].
  split; [reflexivity |]. split; reflexivity.
Qed.

(** C8, amended: the notebook never closes the handle.  When the path
    resolves, the run ends with one more open handle on it than it started
    with, whether the signal object was built or a cell raised; when the
    path does not resolve, no handle is opened. *)
Theorem pipeline_leaves_handle_open
    (path : string) (start num_secs : Z) (w : Nwb.world) :
  let w' := snd (Notebook.pipeline path start num_secs w) in
  Nwb.files w' = Nwb.files w /\
  (is_Some (Nwb.files w !! path) ->
     Nwb.open_handles w' = path :: Nwb.open_handles w) /\
  (Nwb.files w !! path = None ->
     fst (Notebook.pipeline path start num_secs w) = inl Py.FileNotFoundError /\
     Nwb.open_handles w' = Nwb.open_handles w).
Proof.
  intros w'. subst w'.
  destruct (Nwb.files w !! path) as [f |] eqn:Hf.
  - rewrite (pipeline_found _ _ _ _ f Hf). simpl.
    split; [reflexivity |]. split; [reflexivity | intros H; discriminate H].
  - rewrite (pipeline_missing _ _ _ _ Hf). simpl.
    split; [reflexivity |]. split; [intros [f H]; discriminate H |].
    intros _. split; reflexivity.
Qed.

Lemma pipeline_leaves_handle_open_witness :
  Nwb.open_handles
    (snd (Notebook.pipeline Notebook.filepath 20 60 (Ex.disk Ex.no_epoch)))
  = Notebook.filepath :: Nwb.open_handles (Ex.disk Ex.no_epoch).
Proof.
  apply (pipeline_leaves_handle_open Notebook.filepath 20 60 (Ex.disk Ex.no_epoch)).
  exists Ex.no_epoch. reflexivity.
Defined.

(** * Further properties of the notebook *)

(** ** What a run can end in *)

(** A float that [round] accepts: neither a NaN nor an infinity. *)
Lemma round_finite (x : spec_float) :
  x <> S754_nan -> (forall sg, x <> S754_infinity sg) ->
  exists r, Py.round x = inr r.
Proof.
  intros Hnan Hinf. destruct x as [sg | sg | | sg m e]; simpl.
  - eexists; reflexivity.
  - destruct (Hinf sg eq_refl).
  - destruct (Hnan eq_refl).
  - eexists; reflexivity.
Qed.

Lemma round_ok_finite (x : spec_float) (r : Z) :
  Py.round x = inr r -> x <> S754_nan /\ (forall sg, x <> S754_infinity sg).
Proof.
  destruct x as [sg | sg | | sg m e]; simpl; intros H;
    try discriminate H; split; intros; discriminate.
Qed.

Lemma extract_missing (nwb : Nwb.NWBFile) (start num_secs : Z) :
  Nwb.acquisition nwb !! "ElectricalSeries" = None ->
  Notebook.extract nwb start num_secs = inl Py.KeyError.
Proof.
  intros Hes. unfold Notebook.extract, Notebook.fs, Nwb.getitem.
  rewrite Hes. reflexivity.
Qed.

(** X1: the window never makes the extraction raise.  For all integers
    [start] and [num_secs], negative or past the end included, the
    extraction returns an array exactly when the container has the series
    and its rate is neither a NaN nor an infinity; it raises [KeyError]
    without the series, [ValueError] on a NaN rate and [OverflowError] on an
    infinite one. *)
Theorem extract_outcome (nwb : Nwb.NWBFile) (start num_secs : Z) :
  ((exists signal, Notebook.extract nwb start num_secs = inr signal) <->
   (exists es, Nwb.acquisition nwb !! "ElectricalSeries" = Some es /\
               Nwb.rate es <> S754_nan /\
               (forall sg, Nwb.rate es <> S754_infinity sg))) /\
  (Nwb.acquisition nwb !! "ElectricalSeries" = None ->
     Notebook.extract nwb start num_secs = inl Py.KeyError) /\
  (forall es, Nwb.acquisition nwb !! "ElectricalSeries" = Some es ->
     (Nwb.rate es = S754_nan ->
        Notebook.extract nwb start num_secs = inl Py.ValueError) /\
     (forall sg, Nwb.rate es = S754_infinity sg ->
        Notebook.extract nwb start num_secs = inl Py.OverflowError)).
Proof.
  split; [| split].
  - destruct (Nwb.acquisition nwb !! "ElectricalSeries") as [es |] eqn:Hes.
    + rewrite (extract_eq _ es) by exact Hes. split.
      * intros [signal Hsig]. exists es. split; [reflexivity |].
        destruct (Py.round (Nwb.rate es)) as [e | r] eqn:Hr; [discriminate Hsig |].
        apply (round_ok_finite _ r Hr).
      * intros (es' & Heq & Hnan & Hinf). injection Heq as <-.
        destruct (round_finite _ Hnan Hinf) as [r Hr]. rewrite Hr. simpl.
        eexists. reflexivity.
    + rewrite extract_missing by exact Hes. split.
      * intros [signal H]. discriminate H.
      * intros (es & H & _). discriminate H.
  - apply extract_missing.
  - intros es Hes. rewrite (extract_eq _ es) by exact Hes.
    split; [intros -> | intros sg ->]; reflexivity.
Qed.

(** What the cells give when they all return. *)
Lemma cells_inv (nwb : Nwb.NWBFile) (start num_secs : Z) (out : Notebook.outputs) :
  Notebook.cells nwb start num_secs = inr out ->
  exists es r a starts b stops info,
    Nwb.acquisition nwb !! "ElectricalSeries" = Some es /\
    Py.round (Nwb.rate es) = inr r /\
    Nwb.start_time (Nwb.epochs nwb) = a :: starts /\
    Nwb.stop_time (Nwb.epochs nwb) = b :: stops /\
    let signal := Np.getitem_rows (Nwb.data es) (start * r) ((start + num_secs) * r) in
    Notebook.info (Notebook.n_channels signal) r (Notebook.bads nwb) = inr info /\
    out = {| Notebook.out_signal := signal;
             Notebook.out_break := (a, b);
             Notebook.out_bads := Notebook.bads nwb;
             Notebook.out_raw := Notebook.raw signal info |}.
Proof.
  unfold Notebook.cells, Notebook.fs, Notebook.signal, Notebook.start_break,
    Notebook.stop_break, Nwb.getitem.
  destruct (Nwb.acquisition nwb !! "ElectricalSeries") as [es |]; simpl;
    [| intros H; discriminate H].
  destruct (Py.round (Nwb.rate es)) as [e | r] eqn:Hr; simpl;
    [intros H; discriminate H |].
  destruct (Nwb.start_time (Nwb.epochs nwb)) as [| a starts]; simpl;
    [intros H; discriminate H |].
  destruct (Nwb.stop_time (Nwb.epochs nwb)) as [| b stops]; simpl;
    [intros H; discriminate H |].
  destruct (Notebook.info _ r (Notebook.bads nwb)) as [e | info] eqn:Hinfo; simpl;
    [intros H; discriminate H |].
  intros H. injection H as <-.
  exists es, r, a, starts, b, stops, info.
  split; [reflexivity |]. split; [exact Hr |]. split; [reflexivity |].
  split; [reflexivity |]. split; [exact Hinfo | reflexivity].
Qed.

(** The cells up to the one that binds [info], when none of them raises. *)
Lemma cells_info (nwb : Nwb.NWBFile) (start num_secs : Z)
    (es : Nwb.ElectricalSeries) (r : Z) :
  Nwb.acquisition nwb !! "ElectricalSeries" = Some es ->
  Py.round (Nwb.rate es) = inr r ->
  Nwb.start_time (Nwb.epochs nwb) <> [] ->
  Nwb.stop_time (Nwb.epochs nwb) <> [] ->
  Notebook.info (Np.ncols (Nwb.data es)) r (Notebook.bads nwb) = inl Py.ValueError ->
  Notebook.cells nwb start num_secs = inl Py.ValueError.
Proof.
  intros Hes Hr Ha Hb Hinfo.
  unfold Notebook.cells, Notebook.fs, Notebook.signal, Notebook.start_break,
    Notebook.stop_break, Nwb.getitem.
  rewrite Hes. simpl. rewrite Hr. simpl.
  destruct (Nwb.start_time (Nwb.epochs nwb)) as [| a starts]; [congruence |].
  destruct (Nwb.stop_time (Nwb.epochs nwb)) as [| b stops]; [congruence |].
  simpl. unfold Notebook.n_channels, Np.shape, Np.getitem_rows. simpl.
  rewrite Hinfo. reflexivity.
Qed.

(** X3: the exception a run ends in, by the first cell that raises.  Once
    the path resolves: [KeyError] without the series, whatever the epochs;
    [ValueError] or [OverflowError] on a NaN or infinite rate, whatever the
    epochs; [IndexError] when the rate rounds and an epoch column is empty;
    and never [FileNotFoundError]. *)
Theorem pipeline_first_error
    (path : string) (start num_secs : Z) (w : Nwb.world) (f : Nwb.NWBFile) :
  Nwb.files w !! path = Some f ->
  let res := fst (Notebook.pipeline path start num_secs w) in
  (Nwb.acquisition f !! "ElectricalSeries" = None -> res = inl Py.KeyError) /\
  (forall es, Nwb.acquisition f !! "ElectricalSeries" = Some es ->
     (Nwb.rate es = S754_nan -> res = inl Py.ValueError) /\
     (forall sg, Nwb.rate es = S754_infinity sg -> res = inl Py.OverflowError) /\
     (forall r, Py.round (Nwb.rate es) = inr r ->
        Nwb.start_time (Nwb.epochs f) = [] \/ Nwb.stop_time (Nwb.epochs f) = [] ->
        res = inl Py.IndexError)) /\
  res <> inl Py.FileNotFoundError.
Proof.
  intros Hf res. subst res. rewrite (pipeline_found _ _ _ _ f Hf). simpl.
  unfold Notebook.cells, Notebook.fs, Notebook.signal, Notebook.start_break,
    Notebook.stop_break, Nwb.getitem.
  split; [| split].
  - intros ->. reflexivity.
  - intros es ->. simpl. split; [| split].
    + intros ->. reflexivity.
    + intros sg ->. reflexivity.
    + intros r ->. simpl.
      destruct (Nwb.start_time (Nwb.epochs f)) as [| a starts];
        destruct (Nwb.stop_time (Nwb.epochs f)) as [| b stops];
        simpl; intros [H | H]; try discriminate H; reflexivity.
  - destruct (Nwb.acquisition f !! "ElectricalSeries") as [es |]; simpl;
      [| discriminate].
    destruct (Py.round (Nwb.rate es)) as [e | r] eqn:Hr; simpl.
    + destruct (Nwb.rate es); simpl in Hr; injection Hr as <- || discriminate Hr;
        discriminate.
    + destruct (Nwb.start_time (Nwb.epochs f)) as [| a starts]; simpl; [discriminate |].
      destruct (Nwb.stop_time (Nwb.epochs f)) as [| b stops]; simpl; [discriminate |].
      destruct (Notebook.info _ r (Notebook.bads f)) as [e | info] eqn:Hinfo; simpl;
        [| discriminate].
      revert Hinfo. unfold Notebook.info, Mne.create_info, Mne.set_bads.
      destruct (r <=? 0); simpl; [intros H; injection H as <-; discriminate |].
      destruct (decide (Forall _ (Notebook.bads f))); simpl; intros H;
        [discriminate H | injection H as <-; discriminate].
Qed.

Lemma pipeline_first_error_witness :
  fst (Notebook.pipeline Notebook.filepath 20 60 (Ex.disk Ex.no_series))
    = inl Py.KeyError /\
  fst (Notebook.pipeline Notebook.filepath 20 60 (Ex.disk Ex.nan_rate))
    = inl Py.ValueError.
Proof.
  split.
  - apply (pipeline_first_error Notebook.filepath 20 60 (Ex.disk Ex.no_series)
             Ex.no_series eq_refl).
    reflexivity.
  - apply (proj1 (proj2 (pipeline_first_error Notebook.filepath 20 60
                           (Ex.disk Ex.nan_rate) Ex.nan_rate eq_refl))
             {| Nwb.rate := S754_nan; Nwb.data := Ex.ramp 3 |}).
    + reflexivity.
    + reflexivity.
Defined.

Lemma extract_outcome_witness :
  (exists signal, Notebook.extract Ex.short_record (-5) 100 = inr signal) /\
  Notebook.extract Ex.no_series (-5) 100 = inl Py.KeyError.
Proof.
  split.
  - apply (proj1 (extract_outcome Ex.short_record (-5) 100)).
    exists {| Nwb.rate := Ex.f1; Nwb.data := Ex.ramp 3 |}.
    split; [reflexivity |]. split; [discriminate | intros sg; discriminate].
  - apply (proj1 (proj2 (extract_outcome Ex.no_series (-5) 100))). reflexivity.
Defined.

(** ** Windows of any kind *)

Lemma signal_eq (nwb : Nwb.NWBFile) (es : Nwb.ElectricalSeries) (start num_secs fs : Z) :
  Nwb.acquisition nwb !! "ElectricalSeries" = Some es ->
  Notebook.signal nwb start num_secs fs =
    inr (Np.getitem_rows (Nwb.data es) (start * fs) ((start + num_secs) * fs)).
Proof.
  intros Hes. unfold Notebook.signal, Nwb.getitem. rewrite Hes. reflexivity.
Qed.

(** A slice is a block of consecutive items of the sequence. *)
Lemma slice_block {A} (l : list A) (lo hi : Z) :
  exists pre post, l = pre ++ Py.slice l lo hi ++ post.
Proof.
  unfold Py.slice.
  set (k := Z.to_nat (Py.adjust_index lo (Z.of_nat (length l)))).
  set (n := Z.to_nat (_ - _)).
  exists (take k l), (drop n (drop k l)).
  rewrite (take_drop n (drop k l)), (take_drop k l). reflexivity.
Qed.

(** X4: whatever the integers [start], [num_secs] and [fs] are, the signal
    is a block of consecutive rows of the record, whole rows in the
    record's order; it has the record's channel count even when it has no
    row, and never more rows than the record. *)
Theorem signal_is_block_of_record
    (nwb : Nwb.NWBFile) (es : Nwb.ElectricalSeries) (start num_secs fs : Z) :
  Nwb.acquisition nwb !! "ElectricalSeries" = Some es ->
  exists signal before after,
    Notebook.signal nwb start num_secs fs = inr signal /\
    Np.rows (Nwb.data es) = before ++ Np.rows signal ++ after /\
    Notebook.n_channels signal = Np.ncols (Nwb.data es) /\
    (fst (Np.shape signal) <= fst (Np.shape (Nwb.data es)))%nat /\
    (Np.wf (Nwb.data es) -> Np.wf signal).
Proof.
  intros Hes. rewrite (signal_eq _ es) by exact Hes.
  destruct (slice_block (Np.rows (Nwb.data es)) (start * fs) ((start + num_secs) * fs))
    as (before & after & Hblock).
  eexists. exists before, after. split; [reflexivity |].
  unfold Np.getitem_rows, Notebook.n_channels, Np.shape, Np.wf. simpl.
  split; [exact Hblock |]. split; [reflexivity |]. split.
  - rewrite Hblock at 2. rewrite !length_app. lia.
  - intros Hwf. rewrite Hblock in Hwf.
    apply Forall_app in Hwf as [_ Hwf]. apply Forall_app in Hwf as [Hwf _].
    exact Hwf.
Qed.

Lemma signal_is_block_of_record_witness :
  exists signal before after,
    Notebook.signal Ex.short_record (-2) 7 1 = inr signal /\
    Np.rows (Ex.ramp 3) = before ++ Np.rows signal ++ after /\
    Notebook.n_channels signal = 1%nat /\
    (fst (Np.shape signal) <= 3)%nat /\
    (Np.wf (Ex.ramp 3) -> Np.wf signal).
Proof.
  apply (signal_is_block_of_record Ex.short_record
           {| Nwb.rate := Ex.f1; Nwb.data := Ex.ramp 3 |} (-2) 7 1).
  reflexivity.
Defined.

Lemma slice_tile {A} (l : list A) (lo mid hi : Z) :
  0 <= lo <= mid -> mid <= hi ->
  Py.slice l lo mid ++ Py.slice l mid hi = Py.slice l lo hi.
Proof.
  intros Hlo Hhi. rewrite !slice_nonneg by lia.
  set (len := Z.of_nat (length l)).
  replace (Z.to_nat (Z.min mid len))
    with (Z.to_nat (Z.min lo len) + Z.to_nat (Z.min mid len - Z.min lo len))%nat by lia.
  rewrite <- drop_drop, take_take_drop. f_equal. lia.
Qed.

(** X5: windows tile the recording.  For [start >= 0], durations
    [a >= 0] and [b >= 0] and [fs >= 0], the rows of the window of [a]
    seconds at [start] followed by the rows of the window of [b] seconds at
    [start + a] are the rows of the window of [a + b] seconds at [start]:
    no row is lost or repeated at the seam, also when a window runs past
    the end of the record. *)
Theorem windows_tile
    (nwb : Nwb.NWBFile) (es : Nwb.ElectricalSeries) (start a b fs : Z) :
  Nwb.acquisition nwb !! "ElectricalSeries" = Some es ->
  0 <= start -> 0 <= a -> 0 <= b -> 0 <= fs ->
  exists first second whole,
    Notebook.signal nwb start a fs = inr first /\
    Notebook.signal nwb (start + a) b fs = inr second /\
    Notebook.signal nwb start (a + b) fs = inr whole /\
    Np.rows first ++ Np.rows second = Np.rows whole.
Proof.
  intros Hes Hs Ha Hb Hfs. rewrite !(signal_eq _ es) by exact Hes.
  do 3 eexists. do 3 (split; [reflexivity |]).
  unfold Np.getitem_rows. simpl.
  replace ((start + (a + b)) * fs) with ((start + a + b) * fs) by lia.
  apply slice_tile; nia.
Qed.

Lemma windows_tile_witness :
  exists first second whole,
    Notebook.signal Ex.six_at_2Hz 0 1 2 = inr first /\
    Notebook.signal Ex.six_at_2Hz (0 + 1) 5 2 = inr second /\
    Notebook.signal Ex.six_at_2Hz 0 (1 + 5) 2 = inr whole /\
    Np.rows first ++ Np.rows second = Np.rows whole.
Proof.
  apply (windows_tile Ex.six_at_2Hz
           {| Nwb.rate := Ex.float_lit 2 1; Nwb.data := Ex.ramp 6 |} 0 1 5 2).
  - reflexivity.
  - lia.
  - lia.
  - lia.
  - lia.
Defined.

(** X6: a window that starts at 0 and whose upper bound reaches the end of
    the record is the whole record, unchanged. *)
Theorem window_from_zero_is_whole_record
    (nwb : Nwb.NWBFile) (es : Nwb.ElectricalSeries) (num_secs fs : Z) :
  Nwb.acquisition nwb !! "ElectricalSeries" = Some es ->
  Z.of_nat (fst (Np.shape (Nwb.data es))) <= num_secs * fs ->
  Notebook.signal nwb 0 num_secs fs = inr (Nwb.data es).
Proof.
  intros Hes Hcover. rewrite (signal_eq _ es) by exact Hes. f_equal.
  destruct (Nwb.data es) as [nc rs]. unfold Np.getitem_rows, Np.shape in *.
  simpl in *. f_equal.
  rewrite slice_nonneg by lia. cbv zeta.
  rewrite (Z.min_l 0) by lia. rewrite Z.sub_0_r.
  change (Z.to_nat 0) with 0%nat. rewrite drop_0. apply take_ge. lia.
Qed.

Lemma window_from_zero_is_whole_record_witness :
  Notebook.signal Ex.six_at_2Hz 0 60 2 = inr (Ex.ramp 6).
Proof.
  apply (window_from_zero_is_whole_record Ex.six_at_2Hz
           {| Nwb.rate := Ex.float_lit 2 1; Nwb.data := Ex.ramp 6 |} 60 2).
  - reflexivity.
  - simpl. lia.
Defined.

Lemma adjust_index_range (i len : Z) : 0 <= len -> 0 <= Py.adjust_index i len <= len.
Proof.
  intros Hlen. unfold Py.adjust_index. destruct (Z.ltb_spec i 0); lia.
Qed.

(** A slice that stops at 0 is empty. *)
Lemma signal_upper_zero
    (nwb : Nwb.NWBFile) (es : Nwb.ElectricalSeries) (start num_secs fs : Z) :
  Nwb.acquisition nwb !! "ElectricalSeries" = Some es ->
  (start + num_secs) * fs = 0 ->
  Notebook.signal nwb start num_secs fs =
    inr {| Np.ncols := Np.ncols (Nwb.data es); Np.rows := [] |}.
Proof.
  intros Hes Hup. rewrite (signal_eq _ es) by exact Hes. f_equal.
  unfold Np.getitem_rows. f_equal. rewrite Hup. unfold Py.slice.
  pose proof (adjust_index_range (start * fs)
                (Z.of_nat (length (Np.rows (Nwb.data es)))) ltac:(lia)) as Hlo.
  rewrite (adjust_index_nonneg 0) by lia.
  replace (Z.to_nat (Z.min 0 _ - _)) with 0%nat by lia.
  apply take_0.
Qed.


(** X7: when the upper bound [(start + num_secs) * fs] is 0 the signal has
    no row, whatever [start] is: so it is for [fs = 0] (a rate that rounds
    to 0) and for [num_secs = - start] (a negative start does not make the
    window end at the end of the record).  The channel count is kept. *)
Theorem window_up_to_zero_is_empty
    (nwb : Nwb.NWBFile) (es : Nwb.ElectricalSeries) (start num_secs fs : Z) :
  Nwb.acquisition nwb !! "ElectricalSeries" = Some es ->
  (start + num_secs) * fs = 0 ->
  Notebook.signal nwb start num_secs fs =
    inr {| Np.ncols := Np.ncols (Nwb.data es); Np.rows := [] |}.
Proof. apply signal_upper_zero. Qed.

Lemma window_up_to_zero_is_empty_witness :
  Notebook.signal Ex.six_at_2Hz (-2) 2 2 =
    inr {| Np.ncols := Np.ncols (Ex.ramp 6); Np.rows := [] |}.
Proof.
  apply (window_up_to_zero_is_empty Ex.six_at_2Hz
           {| Nwb.rate := Ex.float_lit 2 1; Nwb.data := Ex.ramp 6 |} (-2) 2 2).
  - reflexivity.
  - reflexivity.
Defined.

(** X8: negative bounds count from the end of the record.  When both
    bounds [lo = start * fs] and [hi = (start + num_secs) * fs] are negative,
    with [- total_samples <= lo <= hi], the signal has [hi - lo] rows and
    its row [i] is row [total_samples + lo + i] of the record. *)
Theorem window_from_the_end
    (nwb : Nwb.NWBFile) (es : Nwb.ElectricalSeries) (start num_secs fs : Z) :
  Nwb.acquisition nwb !! "ElectricalSeries" = Some es ->
  let total := Z.of_nat (fst (Np.shape (Nwb.data es))) in
  let lo := start * fs in
  let hi := (start + num_secs) * fs in
  - total <= lo -> lo <= hi -> hi < 0 ->
  exists signal,
    Notebook.signal nwb start num_secs fs = inr signal /\
    Z.of_nat (fst (Np.shape signal)) = hi - lo /\
    (forall i : nat, Z.of_nat i < hi - lo ->
       Np.rows signal !! i = Np.rows (Nwb.data es) !! (Z.to_nat (total + lo) + i)%nat).
Proof.
  intros Hes total lo hi Hlo Hle Hhi. rewrite (signal_eq _ es) by exact Hes.
  eexists. split; [reflexivity |].
  unfold Np.getitem_rows, Np.shape in *. simpl in *. fold lo hi.
  assert (Hslice : Py.slice (Np.rows (Nwb.data es)) lo hi =
            take (Z.to_nat (hi - lo)) (drop (Z.to_nat (total + lo)) (Np.rows (Nwb.data es)))).
  { unfold Py.slice, Py.adjust_index. fold total.
    destruct (Z.ltb_spec lo 0); [| lia]. destruct (Z.ltb_spec hi 0); [| lia].
    f_equal; [| f_equal]; lia. }
  rewrite Hslice. split.
  - rewrite length_take, length_drop. fold total. lia.
  - intros i Hi. rewrite lookup_take_lt by lia. rewrite lookup_drop. reflexivity.
Qed.

Lemma window_from_the_end_witness :
  exists signal,
    Notebook.signal Ex.six_at_2Hz (-2) 1 2 = inr signal /\
    Z.of_nat (fst (Np.shape signal)) = (-2 + 1) * 2 - (-2) * 2 /\
    (forall i : nat, Z.of_nat i < (-2 + 1) * 2 - (-2) * 2 ->
       Np.rows signal !! i =
       Np.rows (Ex.ramp 6) !! (Z.to_nat (Z.of_nat 6 + (-2) * 2) + i)%nat).
Proof.
  apply (window_from_the_end Ex.six_at_2Hz
           {| Nwb.rate := Ex.float_lit 2 1; Nwb.data := Ex.ramp 6 |} (-2) 1 2).
  - reflexivity.
  - simpl. lia.
  - lia.
  - lia.
Defined.

(** ** The sampling frequency *)

Lemma round_half_even_shift_exact (n k : Z) :
  0 <= k -> Py.round_half_even_shift (n * 2 ^ k) k = n.
Proof.
  intros Hk. unfold Py.round_half_even_shift.
  assert (Hd : 0 < 2 ^ k) by (apply Z.pow_pos_nonneg; lia).
  rewrite Z.div_mul, Z.mod_mul by lia.
  destruct (Z.compare_spec (2 * 0) (2 ^ k)); [lia | reflexivity | lia].
Qed.

(** X9: a stored rate whose value is an integer is taken as it is: when
    the rate [(-1)^s * m * 2^e] equals the integer [n], [fs] is [n]. *)
Theorem fs_of_integral_rate
    (nwb : Nwb.NWBFile) (es : Nwb.ElectricalSeries)
    (s : bool) (m : positive) (e n : Z) :
  Nwb.acquisition nwb !! "ElectricalSeries" = Some es ->
  Nwb.rate es = S754_finite s m e ->
  (0 <= e -> n = Z.pos m * 2 ^ e) ->
  (e < 0 -> Z.pos m = n * 2 ^ (- e)) ->
  Notebook.fs nwb = inr (if s then - n else n).
Proof.
  intros Hes Hrate Hpos Hneg. unfold Notebook.fs, Nwb.getitem.
  rewrite Hes. simpl. rewrite Hrate. simpl. unfold Py.round_magnitude.
  destruct (Z.leb_spec 0 e) as [He | He].
  - rewrite <- (Hpos He). reflexivity.
  - rewrite (Hneg He), round_half_even_shift_exact by lia. reflexivity.
Qed.

Lemma fs_of_integral_rate_witness :
  Notebook.fs (Ex.container (Ex.float_lit 3052 1) (Ex.ramp 3) [] []) = inr 3052.
Proof.
  apply (fs_of_integral_rate
           (Ex.container (Ex.float_lit 3052 1) (Ex.ramp 3) [] [])
           {| Nwb.rate := Ex.float_lit 3052 1; Nwb.data := Ex.ramp 3 |}
           false 6711418975944704 (-41) 3052).
  - reflexivity.
  - reflexivity.
  - lia.
  - intros _. reflexivity.
Defined.

(** ** The Raw object *)

(** Transposing twice gives the array back. *)
Lemma T_T (a : Np.ndarray) : Np.wf a -> Np.T (Np.T a) = a.
Proof.
  intros Hwf. pose proof (T_wf a Hwf) as HwfT.
  assert (Hrows : Np.rows (Np.T (Np.T a)) = Np.rows a).
  { apply list_eq. intros t. rewrite T_rows_lookup.
    change (Np.ncols (Np.T a)) with (length (Np.rows a)).
    destruct (decide (t < length (Np.rows a))%nat) as [Ht | Ht].
    - destruct (lookup_lt_is_Some_2 (Np.rows a) t Ht) as [r Hr].
      rewrite Hr. f_equal. apply list_eq. intros c.
      rewrite column_lookup.
      + change (match Np.rows (Np.T a) !! c with
                | Some r0 => r0 !! t
                | None => None
                end) with (Np.get (Np.T a) c t).
        rewrite T_get by exact Hwf. unfold Np.get. rewrite Hr. reflexivity.
      + eapply Forall_impl; [exact HwfT |]. simpl. intros col Hcol. lia.
    - symmetry. apply lookup_ge_None. lia. }
  destruct a as [nc rs]. unfold Np.T in *. simpl in *.
  rewrite Hrows. f_equal. rewrite length_map, length_seq. reflexivity.
Qed.

(** X10: the Raw object loses nothing of a rectangular signal: transposing
    the array it stores gives the signal back, item for item and shape for
    shape (also for a signal without rows or without channels). *)
Theorem raw_data_transposed_back
    (signal : Np.ndarray) (info : Mne.Info) :
  Np.wf signal ->
  Np.T (Mne.raw_data (Notebook.raw signal info)) = signal.
Proof.
  intros Hwf. unfold Notebook.raw. simpl. apply T_T, Hwf.
Qed.

Lemma raw_data_transposed_back_witness :
  Np.T (Mne.raw_data
          (Notebook.raw Ex.a23
             (Mne.mk_Info (map Py.str (seq 0 3)) 1 "ecog" []))) = Ex.a23.
Proof.
  apply (raw_data_transposed_back Ex.a23
           (Mne.mk_Info (map Py.str (seq 0 3)) 1 "ecog" [])).
  repeat constructor.
Defined.

Lemma ch_names_lookup (n i : nat) :
  (i < n)%nat -> map Py.str (seq 0 n) !! i = Some (Py.str i).
Proof.
  intros Hi. change (map ?f ?l) with (f <$> l).
  rewrite list_lookup_fmap, lookup_seq_lt by exact Hi. reflexivity.
Qed.

Lemma ch_names_NoDup (n : nat) : NoDup (map Py.str (seq 0 n)).
Proof.
  assert (Hinj : Inj eq eq Py.str) by (intros i j; apply str_inj).
  apply (NoDup_fmap_2 Py.str), NoDup_seq.
Qed.

Lemma ch_names_elem (n i : nat) :
  Py.str i ∈ map Py.str (seq 0 n) <-> (i < n)%nat.
Proof.
  change (map ?f ?l) with (f <$> l).
  rewrite list_elem_of_fmap. split.
  - intros (j & Hj & Hin). apply str_inj in Hj. subst j.
    apply elem_of_seq in Hin. lia.
  - intros Hi. exists i. split; [reflexivity |]. apply elem_of_seq. lia.
Qed.

Lemma bads_elem (nwb : Nwb.NWBFile) (s : string) :
  s ∈ Notebook.bads nwb <->
  exists i : nat, s = Py.str i /\ Nwb.bad (Nwb.electrodes nwb) !! i = Some true.
Proof.
  rewrite bads_kept_indices. change (map ?f ?l) with (f <$> l).
  rewrite list_elem_of_fmap. split.
  - intros (i & -> & Hi). exists i. split; [reflexivity |].
    apply kept_indices_elem in Hi as [_ Hi]. rewrite Nat.sub_0_r in Hi. exact Hi.
  - intros (i & -> & Hi). exists i. split; [reflexivity |].
    apply kept_indices_elem. rewrite Nat.sub_0_r. split; [lia | exact Hi].
Qed.

(** The bads all name one of the channels ["0"], ..., [str(n - 1)] exactly
    when every flagged electrode index is below [n]. *)
Lemma bads_among_names (nwb : Nwb.NWBFile) (n : nat) :
  Forall (fun b => b ∈ map Py.str (seq 0 n)) (Notebook.bads nwb) <->
  (forall i : nat, Nwb.bad (Nwb.electrodes nwb) !! i = Some true -> (i < n)%nat).
Proof.
  rewrite Forall_forall. split.
  - intros Hall i Hi. apply (ch_names_elem n i), Hall, bads_elem.
    exists i. split; [reflexivity | exact Hi].
  - intros Hbelow s Hs. apply bads_elem in Hs as (i & -> & Hi).
    apply ch_names_elem, Hbelow, Hi.
Qed.

(** X11: the Raw object of a run that returns is dimensionally consistent.
    Over a rectangular record, the stored array has one row per channel
    name and one column per row of the signal; there are as many channel
    names as the record has channels, they are ["0"], ["1"], ... without
    repetition; the sampling frequency of the info is the rounded rate, its
    channel type is ["ecog"], and its bads are the run's invalid channels;
    the sampling frequency is positive and every bad is a channel name. *)
Theorem raw_is_consistent
    (path : string) (start num_secs : Z) (w : Nwb.world)
    (f : Nwb.NWBFile) (es : Nwb.ElectricalSeries) (out : Notebook.outputs) :
  Nwb.files w !! path = Some f ->
  Nwb.acquisition f !! "ElectricalSeries" = Some es ->
  Np.wf (Nwb.data es) ->
  fst (Notebook.pipeline path start num_secs w) = inr out ->
  let raw := Notebook.out_raw out in
  let info := Mne.raw_info raw in
  Np.wf (Mne.raw_data raw) /\
  fst (Np.shape (Mne.raw_data raw)) = length (Mne.ch_names info) /\
  snd (Np.shape (Mne.raw_data raw)) = fst (Np.shape (Notebook.out_signal out)) /\
  length (Mne.ch_names info) = Np.ncols (Nwb.data es) /\
  (forall i : nat, (i < Np.ncols (Nwb.data es))%nat ->
     Mne.ch_names info !! i = Some (Py.str i)) /\
  NoDup (Mne.ch_names info) /\
  Py.round (Nwb.rate es) = inr (Mne.sfreq info) /\
  Mne.ch_types info = "ecog"%string /\
  Mne.bads info = Notebook.out_bads out /\
  0 < Mne.sfreq info /\
  Forall (fun b => b ∈ Mne.ch_names info) (Mne.bads info).
Proof.
  intros Hf Hes Hwf Hout raw info. subst raw info.
  rewrite (pipeline_found _ _ _ _ f Hf) in Hout. simpl in Hout.
  apply cells_inv in Hout
    as (es' & r & a & starts & b & stops & info & Hes' & Hr & _ & _ & Hinfo & Hout).
  rewrite Hes in Hes'. injection Hes' as <-.
  apply info_inv in Hinfo as (Hpos & Hall & ->). subst out. simpl.
  unfold Notebook.n_channels, Np.shape, Np.getitem_rows in *. simpl in *.
  split; [| split; [| split; [| split; [| split; [| split; [| split; [| split;
    [| split; [| split]]]]]]]]].
  - apply T_wf. unfold Np.wf. simpl.
    destruct (slice_block (Np.rows (Nwb.data es)) (start * r) ((start + num_secs) * r))
      as (pre & post & Hblock).
    unfold Np.wf in Hwf. rewrite Hblock in Hwf.
    apply Forall_app in Hwf as [_ Hwf]. apply Forall_app in Hwf as [Hwf _].
    exact Hwf.
  - rewrite !length_map. reflexivity.
  - reflexivity.
  - rewrite length_map, length_seq. reflexivity.
  - intros i Hi. apply (ch_names_lookup _ i Hi).
  - apply ch_names_NoDup.
  - exact Hr.
  - reflexivity.
  - reflexivity.
  - exact Hpos.
  - exact Hall.
Qed.

Lemma raw_is_consistent_witness :
  exists out,
    fst (Notebook.pipeline Notebook.filepath 0 2 (Ex.disk Ex.six_at_2Hz)) = inr out /\
    fst (Np.shape (Mne.raw_data (Notebook.out_raw out))) =
      length (Mne.ch_names (Mne.raw_info (Notebook.out_raw out))) /\
    snd (Np.shape (Mne.raw_data (Notebook.out_raw out))) =
      fst (Np.shape (Notebook.out_signal out)).
Proof.
  eexists. split; [reflexivity |].
  pose proof (raw_is_consistent Notebook.filepath 0 2 (Ex.disk Ex.six_at_2Hz)
                Ex.six_at_2Hz
                {| Nwb.rate := Ex.float_lit 2 1; Nwb.data := Ex.ramp 6 |} _
                eq_refl eq_refl ltac:(repeat constructor) eq_refl)
    as (_ & H1 & H2 & _).
  split; [exact H1 | exact H2].
Defined.

(** X2: what a run that returns its outputs has passed.  The path resolves,
    the container has the series, the rate is neither a NaN nor an infinity
    and rounds to a positive integer, both epoch columns have a first item,
    and every flagged electrode index is below the record's channel
    count. *)
Theorem pipeline_returns_only_if
    (path : string) (start num_secs : Z) (w : Nwb.world) (out : Notebook.outputs) :
  fst (Notebook.pipeline path start num_secs w) = inr out ->
  exists f es r,
    Nwb.files w !! path = Some f /\
    Nwb.acquisition f !! "ElectricalSeries" = Some es /\
    Nwb.rate es <> S754_nan /\
    (forall sg, Nwb.rate es <> S754_infinity sg) /\
    Py.round (Nwb.rate es) = inr r /\
    0 < r /\
    Nwb.start_time (Nwb.epochs f) <> [] /\
    Nwb.stop_time (Nwb.epochs f) <> [] /\
    (forall i : nat, Nwb.bad (Nwb.electrodes f) !! i = Some true ->
       (i < Np.ncols (Nwb.data es))%nat).
Proof.
  intros Hout. destruct (Nwb.files w !! path) as [f |] eqn:Hf.
  - rewrite (pipeline_found _ _ _ _ f Hf) in Hout. simpl in Hout.
    apply cells_inv in Hout
      as (es & r & a & starts & b & stops & info & Hes & Hr & Ha & Hb & Hinfo & _).
    apply info_inv in Hinfo as (Hpos & Hall & _).
    destruct (round_ok_finite _ _ Hr) as [Hnan Hinf].
    exists f, es, r. rewrite Ha, Hb.
    repeat split; try assumption; try discriminate.
    apply (bads_among_names f), Hall.
  - rewrite (pipeline_missing _ _ _ _ Hf) in Hout. discriminate Hout.
Qed.

Lemma pipeline_returns_only_if_witness :
  exists f es r,
    Nwb.files (Ex.disk Ex.six_at_2Hz) !! Notebook.filepath = Some f /\
    Nwb.acquisition f !! "ElectricalSeries" = Some es /\
    Nwb.rate es <> S754_nan /\
    (forall sg, Nwb.rate es <> S754_infinity sg) /\
    Py.round (Nwb.rate es) = inr r /\
    0 < r /\
    Nwb.start_time (Nwb.epochs f) <> [] /\
    Nwb.stop_time (Nwb.epochs f) <> [] /\
    (forall i : nat, Nwb.bad (Nwb.electrodes f) !! i = Some true ->
       (i < Np.ncols (Nwb.data es))%nat).
Proof.
  eapply (pipeline_returns_only_if Notebook.filepath 0 2 (Ex.disk Ex.six_at_2Hz)).
  reflexivity.
Defined.

(** X12: the cell that binds [info] raises [ValueError] when the rate
    rounds to an integer that is not positive, and when a flagged electrode
    index is not below the record's channel count (its name is then no
    channel name of the info): a run that got that far ends in
    [ValueError]. *)
Theorem info_cell_raises
    (path : string) (start num_secs : Z) (w : Nwb.world)
    (f : Nwb.NWBFile) (es : Nwb.ElectricalSeries) (r : Z) :
  Nwb.files w !! path = Some f ->
  Nwb.acquisition f !! "ElectricalSeries" = Some es ->
  Py.round (Nwb.rate es) = inr r ->
  Nwb.start_time (Nwb.epochs f) <> [] ->
  Nwb.stop_time (Nwb.epochs f) <> [] ->
  r <= 0 \/
  (exists i : nat, Nwb.bad (Nwb.electrodes f) !! i = Some true /\
                   (Np.ncols (Nwb.data es) <= i)%nat) ->
  fst (Notebook.pipeline path start num_secs w) = inl Py.ValueError.
Proof.
  intros Hf Hes Hr Ha Hb Hbad.
  rewrite (pipeline_found _ _ _ _ f Hf). simpl.
  apply (cells_info f start num_secs es r Hes Hr Ha Hb).
  apply info_raises. destruct Hbad as [Hr0 | (i & Hi & Hge)]; [left; exact Hr0 |].
  right. intros Hall.
  pose proof (proj1 (bads_among_names f _) Hall i Hi) as Hlt. lia.
Qed.

Lemma info_cell_raises_witness :
  fst (Notebook.pipeline Notebook.filepath 0 2 (Ex.disk Ex.bad_beyond_channels))
    = inl Py.ValueError.
Proof.
  apply (info_cell_raises Notebook.filepath 0 2 (Ex.disk Ex.bad_beyond_channels)
           Ex.bad_beyond_channels
           {| Nwb.rate := Ex.f1; Nwb.data := Ex.ramp 3 |} 1).
  - reflexivity.
  - reflexivity.
  - reflexivity.
  - discriminate.
  - discriminate.
  - right. exists 1%nat. split; [reflexivity | simpl; lia].
Defined.

(** A rate of one half rounds to 0, and the run ends in [ValueError]. *)
Example half_hertz_run :
  fst (Notebook.pipeline Notebook.filepath 20 60
         (Ex.disk (Ex.container (Ex.float_lit 1 2) (Ex.ramp 3)
                     [(Ex.f318, Ex.f334)] [false])))
    = inl Py.ValueError.
Proof. reflexivity. Qed.

Lemma kept_indices_count (flags : list bool) (n : nat) :
  length (Notebook.kept_indices n flags) =
    length (filter (fun b : bool => b = true) flags).
Proof.
  revert n. induction flags as [| b flags IH]; intros n; [reflexivity |].
  rewrite kept_indices_cons, filter_cons. specialize (IH (S n)).
  destruct b; simpl.
  - destruct (decide (true = true)); [simpl; lia | congruence].
  - destruct (decide (false = true)); [congruence | exact IH].
Qed.

(** X13: testing a channel by name.  [str(i)] is in the invalid-channel
    list exactly when electrode [i] is flagged; every item of the list is
    such a name; and the list has as many items as there are flags set. *)
Theorem bads_by_name (nwb : Nwb.NWBFile) :
  let flags := Nwb.bad (Nwb.electrodes nwb) in
  (forall i : nat, Py.str i ∈ Notebook.bads nwb <-> flags !! i = Some true) /\
  (forall s : string, s ∈ Notebook.bads nwb ->
     exists i : nat, s = Py.str i /\ flags !! i = Some true) /\
  length (Notebook.bads nwb) = length (filter (fun b : bool => b = true) flags).
Proof.
  intros flags. split; [| split].
  - intros i. rewrite bads_elem. fold flags. split.
    + intros (j & Hj & Hflag). apply str_inj in Hj. subst j. exact Hflag.
    + intros Hflag. exists i. split; [reflexivity | exact Hflag].
  - intros s Hs. apply bads_elem in Hs. exact Hs.
  - rewrite bads_kept_indices, length_map. apply kept_indices_count.
Qed.

Lemma bads_by_name_witness :
  Py.str 7 ∈ Notebook.bads Ex.bad_3_7 /\ ~ Py.str 4 ∈ Notebook.bads Ex.bad_3_7.
Proof.
  destruct (bads_by_name Ex.bad_3_7) as (Hmem & _ & _).
  split.
  - apply Hmem. reflexivity.
  - intros H. apply Hmem in H. discriminate H.
Defined.

(** X14: a positive rate of at most one half rounds to 0 (one half is a tie
    and goes to the even neighbour, 0), and then the extraction returns an
    array without rows for every window. *)
Theorem rate_up_to_half_gives_no_sample
    (nwb : Nwb.NWBFile) (es : Nwb.ElectricalSeries)
    (m : positive) (e start num_secs : Z) :
  Nwb.acquisition nwb !! "ElectricalSeries" = Some es ->
  Nwb.rate es = S754_finite false m e ->
  e < 0 -> 2 * Z.pos m <= 2 ^ (- e) ->
  Notebook.fs nwb = inr 0 /\
  Notebook.extract nwb start num_secs =
    inr {| Np.ncols := Np.ncols (Nwb.data es); Np.rows := [] |}.
Proof.
  intros Hes Hrate He Hhalf.
  assert (Hfs : Notebook.fs nwb = inr 0).
  { unfold Notebook.fs, Nwb.getitem. rewrite Hes. simpl. rewrite Hrate. simpl.
    unfold Py.round_magnitude. destruct (Z.leb_spec 0 e); [lia |].
    unfold Py.round_half_even_shift.
    assert (Hd : 0 < 2 ^ (- e)) by (apply Z.pow_pos_nonneg; lia).
    rewrite Z.div_small, Z.mod_small by lia.
    destruct (Z.compare_spec (2 * Z.pos m) (2 ^ (- e))); [reflexivity | reflexivity | lia]. }
  split; [exact Hfs |].
  unfold Notebook.extract. rewrite Hfs. simpl.
  apply signal_upper_zero; [exact Hes | lia].
Qed.

Lemma rate_up_to_half_gives_no_sample_witness :
  Notebook.fs (Ex.container (Ex.float_lit 1 2) (Ex.ramp 3) [] []) = inr 0 /\
  Notebook.extract (Ex.container (Ex.float_lit 1 2) (Ex.ramp 3) [] []) 0 60 =
    inr {| Np.ncols := Np.ncols (Ex.ramp 3); Np.rows := [] |}.
Proof.
  apply (rate_up_to_half_gives_no_sample
           (Ex.container (Ex.float_lit 1 2) (Ex.ramp 3) [] [])
           {| Nwb.rate := Ex.float_lit 1 2; Nwb.data := Ex.ramp 3 |}
           4503599627370496 (-53) 0 60).
  - reflexivity.
  - reflexivity.
  - lia.
  - vm_compute. discriminate.
Defined.
